(** * Skill badges: the routes of [backend/routes/skillBadge.js]

    The router maps each HTTP request to one parameterised SQL statement on
    the table [skill_badges] and shapes the rows that come back into a JSON
    envelope.  The development has three layers, in the order in which a
    request flows through the code:

    - the JavaScript side: request values, truthiness, own-property lookup,
      and the handlers themselves, which either answer at once or issue one
      statement and continue with its rows;
    - the driver and the column input functions, which turn a JavaScript
      parameter into a value of the column's type or raise an error;
    - the table, with the constraints, defaults and the [BEFORE UPDATE]
      trigger declared by the schema of the set-up route
      ([GET /create-skill-badges-table]); the table is taken as set up by
      that route, which is idempotent and touches no row. *)

From Stdlib Require Import Ascii.
From stdpp Require Import gmap strings list sorting.

Open Scope Z_scope.

(** ** JavaScript values *)

(** What a parsed JSON body, a parsed query string or a destructured
    property can hold.  A number is carried by the text JavaScript prints
    for it ([String(n)]: "7", "-1.5", "1e+21"), which is all the router and
    the driver ever look at; [JObject] stands for any non-null object or
    array and carries the text the driver sends for it (its JSON text, or
    the array literal). *)
Inductive jsval :=
  | JUndefined
  | JNull
  | JBool (b : bool)
  | JNum (text : string)
  | JStr (s : string)
  | JObject (text : string).

Global Instance jsval_eq_dec : EqDecision jsval.
Proof. solve_decision. Defined.

(** [!!v]: the falsy values are [undefined], [null], [false], the numbers
    [0], [-0] (both printed "0") and [NaN], and the empty string. *)
Definition truthy (v : jsval) : bool :=
  match v with
  | JUndefined | JNull => false
  | JBool b => b
  | JNum text => negb (String.eqb text "0" || String.eqb text "NaN")
  | JStr s => negb (String.eqb s "")
  | JObject _ => true
  end.

(** [typeof v === 'boolean'] *)
Definition typeof_boolean (v : jsval) : bool :=
  match v with JBool _ => true | _ => false end.

(** [a || b] *)
Definition js_or (a b : jsval) : jsval := if truthy a then a else b.

(** A request object ([req.body], [req.query]): its own properties. *)
Abbreviation jsobject := (gmap string jsval).

(** [Object.prototype.hasOwnProperty.call(o, key)] *)
Definition hasOwnProperty (o : jsobject) (key : string) : bool :=
  bool_decide (is_Some (o !! key)).

(** [o[key]], and a destructured [const { key } = o]: [undefined] when the
    property is missing. *)
Definition prop (o : jsobject) (key : string) : jsval :=
  default JUndefined (o !! key).

(** ** The driver and the column input functions *)

(** SQLSTATE classes the statements of this router can raise. *)
Inductive pg_error :=
  | character_not_in_repertoire   (* 22021 *)
  | invalid_text_representation   (* 22P02 *)
  | numeric_value_out_of_range    (* 22003 *)
  | string_data_right_truncation  (* 22001 *)
  | not_null_violation            (* 23502 *)
  | undefined_column.             (* 42703 *)

Global Instance pg_error_eq_dec : EqDecision pg_error.
Proof. solve_decision. Defined.

Inductive pg_result (A : Type) :=
  | PgOk (a : A)
  | PgErr (e : pg_error).
Arguments PgOk {A} a.
Arguments PgErr {A} e.

Definition pg_bind {A B} (m : pg_result A) (f : A → pg_result B) : pg_result B :=
  match m with PgOk a => f a | PgErr e => PgErr e end.

Notation "x ←! m ; k" := (pg_bind m (λ x, k))
  (at level 20, m at level 100, k at level 200, right associativity,
   format "x  ←!  m ;  '/' k").

Definition pg_map {A B} (f : A → B) (m : pg_result A) : pg_result B :=
  x ←! m; PgOk (f x).

Fixpoint pg_mapM {A B} (f : A → pg_result B) (l : list A) : pg_result (list B) :=
  match l with
  | [] => PgOk []
  | x :: l' => y ←! f x; ys ←! pg_mapM f l'; PgOk (y :: ys)
  end.

(** The text the driver sends for a parameter ([null] and [undefined] go
    as SQL [NULL], here [None]; booleans and numbers by [toString]).  A
    text is the sequence of the bytes of its UTF-8 encoding, which is how
    the driver writes a JavaScript string on the wire. *)
Definition prepareValue (v : jsval) : option string :=
  match v with
  | JUndefined | JNull => None
  | JBool true => Some "true"
  | JBool false => Some "false"
  | JNum text => Some text
  | JStr s => Some s
  | JObject text => Some text
  end.

(** *** Text in the encoding of the database (UTF8) *)

(** A byte [10xxxxxx], which continues a character. *)
Definition continuation (c : ascii) : bool :=
  let n := nat_of_ascii c in (128 <=? n)%nat && (n <=? 191)%nat.

(** The check of the server on a text parameter: [pending] bytes of the
    current character are still to come, the next of them within
    [lo..hi].  The zero byte is no character of a text; overlong forms,
    surrogates and code points above U+10FFFF are not legal. *)
Fixpoint utf8_verify (pending lo hi : nat) (s : string) : bool :=
  match s with
  | EmptyString => (pending =? 0)%nat
  | String c s' =>
      let n := nat_of_ascii c in
      match pending with
      | S k => (lo <=? n)%nat && (n <=? hi)%nat && utf8_verify k 128 191 s'
      | O =>
          if (n =? 0)%nat then false
          else if (n <? 128)%nat then utf8_verify 0 128 191 s'
          else if (n <? 194)%nat then false
          else if (n <? 224)%nat then utf8_verify 1 128 191 s'
          else if (n =? 224)%nat then utf8_verify 2 160 191 s'
          else if (n =? 237)%nat then utf8_verify 2 128 159 s'
          else if (n <? 240)%nat then utf8_verify 2 128 191 s'
          else if (n =? 240)%nat then utf8_verify 3 144 191 s'
          else if (n <? 244)%nat then utf8_verify 3 128 191 s'
          else if (n =? 244)%nat then utf8_verify 3 128 143 s'
          else false
      end
  end.

Definition valid_utf8 (s : string) : bool := utf8_verify 0 128 191 s.

(** The number of characters of a text: the bytes that start one. *)
Fixpoint utf8_length (s : string) : nat :=
  match s with
  | EmptyString => 0
  | String c s' => if continuation c then utf8_length s' else S (utf8_length s')
  end.

(** The first [n] characters of a text, and what follows them. *)
Fixpoint utf8_take (n : nat) (s : string) : string :=
  match s with
  | EmptyString => EmptyString
  | String c s' =>
      if continuation c then String c (utf8_take n s')
      else match n with
           | O => EmptyString
           | S n' => String c (utf8_take n' s')
           end
  end.

Fixpoint utf8_drop (n : nat) (s : string) : string :=
  match s with
  | EmptyString => EmptyString
  | String c s' =>
      if continuation c then utf8_drop n s'
      else match n with
           | O => s
           | S n' => utf8_drop n' s'
           end
  end.

(** Every text parameter is verified when the statement is bound, before
    the input function of its column sees it. *)
Definition pg_client_to_server (text : option string) : pg_result (option string) :=
  match text with
  | None => PgOk None
  | Some s => if valid_utf8 s then PgOk (Some s) else PgErr character_not_in_repertoire
  end.

(** *** Input functions *)

Fixpoint ltrim (s : string) : string :=
  match s with
  | String c s' => if Ascii.is_space c then ltrim s' else s
  | EmptyString => s
  end.

Definition trim (s : string) : string :=
  String.rev (ltrim (String.rev (ltrim s))).

Fixpoint all_space (s : string) : bool :=
  match s with
  | EmptyString => true
  | String c s' => if Ascii.is_space c then all_space s' else false
  end.

(** Decimal digits, then nothing but blanks. *)
Fixpoint digits (acc : Z) (s : string) : option Z :=
  match s with
  | EmptyString => Some acc
  | String c s' =>
      match Ascii.is_nat c with
      | Some d => digits (10 * acc + Z.of_nat d) s'
      | None => if all_space s then Some acc else None
      end
  end.

(** The text after an optional sign, and whether the sign was a minus. *)
Definition after_sign (s : string) : string :=
  match s with
  | String "-"%char s' => s'
  | String "+"%char s' => s'
  | _ => s
  end.

Definition negative (s : string) : bool :=
  match s with
  | String "-"%char _ => true
  | _ => false
  end.

Definition starts_with_digit (s : string) : bool :=
  match s with
  | String c _ => bool_decide (is_Some (Ascii.is_nat c))
  | EmptyString => false
  end.

(** An optional sign, at least one decimal digit, trailing blanks. *)
Definition signed_decimal (s : string) : option Z :=
  if starts_with_digit (after_sign s)
  then (if negative s then Z.opp else Datatypes.id) <$> digits 0 (after_sign s)
  else None.

(** Input function of [BIGINT]: the decimal spellings, surrounding blanks
    allowed, within the range of a signed 64-bit integer.  These are the
    spellings every version of the server reads; the servers that also
    read other spellings (a radix prefix, digit groups) differ only on
    texts that begin, after blanks and sign, with a digit. *)
Definition bigint_in (text : option string) : pg_result (option Z) :=
  t ←! pg_client_to_server text;
  match t with
  | None => PgOk None
  | Some s =>
      match signed_decimal (ltrim s) with
      | None => PgErr invalid_text_representation
      | Some n =>
          if bool_decide (- 2 ^ 63 ≤ n < 2 ^ 63) then PgOk (Some n)
          else PgErr numeric_value_out_of_range
      end
  end.

Definition lower (c : ascii) : ascii :=
  let n := nat_of_ascii c in
  if bool_decide (65 ≤ n ≤ 90)%nat then ascii_of_nat (n + 32) else c.

Fixpoint lowercase (s : string) : string :=
  match s with
  | EmptyString => EmptyString
  | String c s' => String (lower c) (lowercase s')
  end.

(** Input function of [BOOLEAN]: the spellings of true and false and their
    unambiguous prefixes, in either case, surrounding blanks allowed. *)
Definition boolean_in (text : option string) : pg_result (option bool) :=
  t ←! pg_client_to_server text;
  match t with
  | None => PgOk None
  | Some s =>
      let w := lowercase (trim s) in
      if bool_decide (w ∈ ["t"; "tr"; "tru"; "true"; "y"; "ye"; "yes"; "on"; "1"])
      then PgOk (Some true)
      else if bool_decide (w ∈ ["f"; "fa"; "fal"; "fals"; "false"; "n"; "no";
                                "of"; "off"; "0"])
      then PgOk (Some false)
      else PgErr invalid_text_representation
  end.

(** Input function of [TEXT], and of [VARCHAR] before its length is
    looked at: any text of the encoding. *)
Definition text_in (text : option string) : pg_result (option string) :=
  pg_client_to_server text.

Fixpoint all_blank (s : string) : bool :=
  match s with
  | EmptyString => true
  | String c s' => if Ascii.eqb c " "%char then all_blank s' else false
  end.

(** Length coercion of [VARCHAR(n)] on assignment, in characters: a longer
    text is an error unless everything past the limit is blank, in which
    case it is cut to the limit.  The coercion is part of the statement,
    not of the parameter: it is applied once every parameter has been
    read, and before any row is visited. *)
Definition varchar_typmod (n : nat) (text : option string) : pg_result (option string) :=
  match text with
  | None => PgOk None
  | Some s =>
      if bool_decide (utf8_length s ≤ n)%nat then PgOk (Some s)
      else if all_blank (utf8_drop n s) then PgOk (Some (utf8_take n s))
      else PgErr string_data_right_truncation
  end.

(** What a [VARCHAR(n)] column makes of a parameter: read, then coerced. *)
Definition varchar_in (n : nat) (text : option string) : pg_result (option string) :=
  t ←! text_in text; varchar_typmod n t.

(** ** The table [skill_badges] *)

(** A row, with the columns of the [CREATE TABLE] statement.  Timestamps
    are points on the server's clock. *)
Record badge := {
  id : Z;                              (* BIGSERIAL PRIMARY KEY *)
  student_id : Z;                      (* BIGINT NOT NULL *)
  badge_name : string;                 (* VARCHAR(255) NOT NULL *)
  badge_description : option string;   (* TEXT *)
  verified : bool;                     (* BOOLEAN NOT NULL DEFAULT false *)
  created_at : Z;                      (* TIMESTAMPTZ NOT NULL DEFAULT now() *)
  updated_at : Z                       (* TIMESTAMPTZ NOT NULL DEFAULT now() *)
}.

Global Instance badge_eq_dec : EqDecision badge.
Proof. solve_decision. Defined.

(** The heap of the table in physical order, and the next value of the
    sequence behind [id]. *)
Record db := {
  rows : list badge;
  skill_badges_id_seq : Z
}.

Definition empty_db : db := {| rows := []; skill_badges_id_seq := 1 |}.

(** The trigger function of the schema: [NEW.updated_at = NOW()]. *)
Definition update_updated_at_column (now : Z) (new : badge) : badge :=
  {| id := id new; student_id := student_id new; badge_name := badge_name new;
     badge_description := badge_description new; verified := verified new;
     created_at := created_at new; updated_at := now |}.

(** A [SET] item, once its parameter has been read at the column's type. *)
Inductive assignment :=
  | SetBadgeName (v : option string)
  | SetBadgeDescription (v : option string)
  | SetVerified (v : option bool)
  | SetStudentId (v : option Z).

(** [key = $i], with the parameter read by the input function of the
    column the key names.  The router only ever writes the four names of
    its [allowed] list into a [SET] list. *)
Definition read_assignment (item : string * jsval) : pg_result assignment :=
  let text := prepareValue item.2 in
  if bool_decide (item.1 = "badge_name") then pg_map SetBadgeName (text_in text)
  else if bool_decide (item.1 = "badge_description") then pg_map SetBadgeDescription (text_in text)
  else if bool_decide (item.1 = "verified") then pg_map SetVerified (boolean_in text)
  else if bool_decide (item.1 = "student_id") then pg_map SetStudentId (bigint_in text)
  else PgErr undefined_column.

(** The coercion of a read value to the declared type of its column. *)
Definition coerce_assignment (a : assignment) : pg_result assignment :=
  match a with
  | SetBadgeName v => pg_map SetBadgeName (varchar_typmod 255 v)
  | _ => PgOk a
  end.

(** What the column named by the key makes of the parameter, taken by
    itself: read, then coerced. *)
Definition bind_assignment (item : string * jsval) : pg_result assignment :=
  a ←! read_assignment item; coerce_assignment a.

(** The new tuple of a row under one [SET] item; [NULL] into a [NOT NULL]
    column violates the constraint. *)
Definition assign (a : assignment) (r : badge) : pg_result badge :=
  match a with
  | SetBadgeName (Some s) =>
      PgOk {| id := id r; student_id := student_id r; badge_name := s;
              badge_description := badge_description r; verified := verified r;
              created_at := created_at r; updated_at := updated_at r |}
  | SetBadgeDescription o =>
      PgOk {| id := id r; student_id := student_id r; badge_name := badge_name r;
              badge_description := o; verified := verified r;
              created_at := created_at r; updated_at := updated_at r |}
  | SetVerified (Some b) =>
      PgOk {| id := id r; student_id := student_id r; badge_name := badge_name r;
              badge_description := badge_description r; verified := b;
              created_at := created_at r; updated_at := updated_at r |}
  | SetStudentId (Some n) =>
      PgOk {| id := id r; student_id := n; badge_name := badge_name r;
              badge_description := badge_description r; verified := verified r;
              created_at := created_at r; updated_at := updated_at r |}
  | SetBadgeName None | SetVerified None | SetStudentId None =>
      PgErr not_null_violation
  end.

Fixpoint assign_all (l : list assignment) (r : badge) : pg_result badge :=
  match l with
  | [] => PgOk r
  | a :: l' => r' ←! assign a r; assign_all l' r'
  end.

(** [SET verified = NOT verified] *)
Definition not_verified (r : badge) : pg_result badge :=
  assign (SetVerified (Some (negb (verified r)))) r.

(** [WHERE id = $k]: a comparison with [NULL] selects nothing. *)
Definition id_is (key : option Z) (r : badge) : bool :=
  match key with
  | Some n => bool_decide (id r = n)
  | None => false
  end.

(** [WHERE student_id = $1] *)
Definition student_id_is (key : option Z) (r : badge) : bool :=
  match key with
  | Some n => bool_decide (student_id r = n)
  | None => false
  end.

(** [UPDATE ... WHERE id = $k RETURNING *] over the heap: every selected
    row gets its new tuple, passes through the [BEFORE UPDATE] trigger and
    is returned; the result is the new heap and the returned rows.  An
    error aborts the statement. *)
Fixpoint update_rows (now : Z) (set : badge → pg_result badge) (key : option Z)
    (l : list badge) : pg_result (list badge * list badge) :=
  match l with
  | [] => PgOk ([], [])
  | r :: l' =>
      if id_is key r then
        new ←! set r;
        rest ←! update_rows now set key l';
        let new' := update_updated_at_column now new in
        PgOk (new' :: rest.1, new' :: rest.2)
      else
        rest ←! update_rows now set key l';
        PgOk (r :: rest.1, rest.2)
  end.

(** [ORDER BY created_at DESC].  Rows with equal [created_at] come in an
    order the server is free to choose; the sort fixes one. *)
Definition newer_first (a b : badge) : Prop := created_at b ≤ created_at a.

Global Instance newer_first_dec : RelDecision newer_first.
Proof. intros a b. unfold newer_first. apply _. Defined.

Definition order_by_created_at_desc (l : list badge) : list badge :=
  merge_sort newer_first l.

(** The statements the router sends, with their JavaScript parameters in
    the order of the placeholders. *)
Inductive statement :=
  | InsertBadge (p1 p2 p3 p4 : jsval)
      (* INSERT INTO skill_badges (student_id, badge_name, badge_description,
         verified) VALUES ($1, $2, $3, $4) RETURNING * *)
  | SelectByStudent (p1 : jsval)
      (* SELECT * FROM skill_badges WHERE student_id = $1 ORDER BY created_at DESC *)
  | SelectAll
      (* SELECT * FROM skill_badges ORDER BY created_at DESC *)
  | SelectById (p1 : jsval)
      (* SELECT * FROM skill_badges WHERE id = $1 *)
  | UpdateSet (fields : list (string * jsval)) (p_id : jsval)
      (* UPDATE skill_badges SET key1 = $1, ... WHERE id = $idx RETURNING * *)
  | UpdateVerified (p1 p2 : jsval)
      (* UPDATE skill_badges SET verified = $1 WHERE id = $2 RETURNING * *)
  | UpdateNotVerified (p1 : jsval)
      (* UPDATE skill_badges SET verified = NOT verified WHERE id = $1 RETURNING * *)
  | DeleteById (p1 : jsval).
      (* DELETE FROM skill_badges WHERE id = $1 RETURNING * *)

Definition with_rows (d : db) (l : list badge) : db :=
  {| rows := l; skill_badges_id_seq := skill_badges_id_seq d |}.

Definition update (now : Z) (set : pg_result (badge → pg_result badge))
    (key : pg_result (option Z)) (d : db) : pg_result (list badge) * db :=
  match (f ←! set; k ←! key; update_rows now f k (rows d)) with
  | PgOk (heap, returning) => (PgOk returning, with_rows d heap)
  | PgErr e => (PgErr e, d)
  end.

(** [pool.query(text, values)] at server time [now]: the rows of the result
    or the error raised, and the table afterwards.  The parameters are
    read when the statement is bound, in the order of the placeholders;
    then the values are coerced to the declared types; only then are rows
    visited.  An error leaves the heap as it was.  [INSERT] draws the new
    [id] from the sequence before the constraints of the new row are
    checked, and a sequence is not rolled back. *)
Definition pool_query (now : Z) (q : statement) (d : db) : pg_result (list badge) * db :=
  match q with
  | InsertBadge p1 p2 p3 p4 =>
      match (sid ←! bigint_in (prepareValue p1);
             name ←! text_in (prepareValue p2);
             desc ←! text_in (prepareValue p3);
             ver ←! boolean_in (prepareValue p4);
             name ←! varchar_typmod 255 name;
             PgOk (sid, name, desc, ver)) with
      | PgErr e => (PgErr e, d)
      | PgOk (sid, name, desc, ver) =>
          let d' := {| rows := rows d;
                       skill_badges_id_seq := skill_badges_id_seq d + 1 |} in
          match sid, name, ver with
          | Some sid, Some name, Some ver =>
              let r := {| id := skill_badges_id_seq d; student_id := sid;
                          badge_name := name; badge_description := desc;
                          verified := ver; created_at := now;
                          updated_at := now |} in
              (PgOk [r], with_rows d' (rows d ++ [r]))
          | _, _, _ => (PgErr not_null_violation, d')
          end
      end
  | SelectByStudent p1 =>
      match bigint_in (prepareValue p1) with
      | PgOk key =>
          (PgOk (order_by_created_at_desc (List.filter (student_id_is key) (rows d))), d)
      | PgErr e => (PgErr e, d)
      end
  | SelectAll => (PgOk (order_by_created_at_desc (rows d)), d)
  | SelectById p1 =>
      match bigint_in (prepareValue p1) with
      | PgOk key => (PgOk (List.filter (id_is key) (rows d)), d)
      | PgErr e => (PgErr e, d)
      end
  | UpdateSet fields p_id =>
      match (reads ←! pg_mapM read_assignment fields;
             key ←! bigint_in (prepareValue p_id);
             asgs ←! pg_mapM coerce_assignment reads;
             PgOk (asgs, key)) with
      | PgErr e => (PgErr e, d)
      | PgOk (asgs, key) => update now (PgOk (assign_all asgs)) (PgOk key) d
      end
  | UpdateVerified p1 p2 =>
      update now (pg_map (λ v, assign (SetVerified v)) (boolean_in (prepareValue p1)))
        (bigint_in (prepareValue p2)) d
  | UpdateNotVerified p1 =>
      update now (PgOk not_verified) (bigint_in (prepareValue p1)) d
  | DeleteById p1 =>
      match bigint_in (prepareValue p1) with
      | PgOk key =>
          (PgOk (List.filter (id_is key) (rows d)),
           with_rows d (List.filter (λ r, negb (id_is key r)) (rows d)))
      | PgErr e => (PgErr e, d)
      end
  end.

(** ** The router *)

(** [data] of the envelope: absent, one row, or an array of rows. *)
Inductive payload :=
  | NoData
  | Row (r : badge)
  | Rows (l : list badge).

(** The JSON envelope [{ success, message?, data? }]. *)
Record envelope := {
  success : bool;
  message : option string;
  data : payload
}.

(** What a handler does with [res] and [next]: [res.status(s).json(e)]
    ([res.json] answers with status 200), or [next(err)]. *)
Inductive response :=
  | Json (status : Z) (e : envelope)
  | Next (err : pg_error).

(** A handler either answers without touching the pool, or awaits one
    [pool.query] and continues with [result.rows]; an error thrown by the
    query is caught and passed to [next]. *)
Inductive handler :=
  | Respond (r : response)
  | Query (q : statement) (k : list badge → response).

(** [result.rows[0]] *)
Definition first_row (l : list badge) : payload :=
  match l with
  | r :: _ => Row r
  | [] => NoData
  end.

Definition not_found : response :=
  Json 404 {| success := false; message := Some "Badge not found"; data := NoData |}.

(** [POST /badges] *)
Definition post_badges (body : jsobject) : handler :=
  let student_id := prop body "student_id" in
  let badge_name := prop body "badge_name" in
  let badge_description := prop body "badge_description" in
  let verified := prop body "verified" in
  if negb (truthy student_id) || negb (truthy badge_name) then
    Respond (Json 400 {| success := false;
                         message := Some "student_id and badge_name are required";
                         data := NoData |})
  else
    Query (InsertBadge student_id badge_name (js_or badge_description JNull)
             (JBool (truthy verified)))
      (λ result_rows,
         Json 201 {| success := true; message := None;
                     data := first_row result_rows |}).

(** [GET /badges] *)
Definition get_badges (query : jsobject) : handler :=
  let student_id := prop query "student_id" in
  let k := λ result_rows,
    Json 200 {| success := true; message := None; data := Rows result_rows |} in
  if truthy student_id then Query (SelectByStudent student_id) k
  else Query SelectAll k.

(** [GET /badges/:id] *)
Definition get_badge (id : string) : handler :=
  Query (SelectById (JStr id))
    (λ result_rows,
       if bool_decide (length result_rows = 0%nat) then not_found
       else Json 200 {| success := true; message := None;
                        data := first_row result_rows |}).

(** [GET /students/:studentId/badges] *)
Definition get_student_badges (studentId : string) : handler :=
  Query (SelectByStudent (JStr studentId))
    (λ result_rows,
       Json 200 {| success := true; message := None; data := Rows result_rows |}).

Definition allowed : list string :=
  ["badge_name"; "badge_description"; "verified"; "student_id"].

(** The loop of [PUT /badges/:id] over [allowed]: each key the body owns
    adds [key = $idx] to [fields] and its value to [values], at the same
    position. *)
Definition collect_fields (body : jsobject) : list (string * jsval) :=
  foldl (λ fields key,
           if hasOwnProperty body key then fields ++ [(key, prop body key)]
           else fields)
    [] allowed.

(** [PUT /badges/:id] *)
Definition put_badge (id : string) (body : jsobject) : handler :=
  let fields := collect_fields body in
  if bool_decide (length fields = 0%nat) then
    Respond (Json 400 {| success := false;
                         message := Some "No fields provided to update";
                         data := NoData |})
  else
    Query (UpdateSet fields (JStr id))
      (λ result_rows,
         if bool_decide (length result_rows = 0%nat) then not_found
         else Json 200 {| success := true; message := None;
                          data := first_row result_rows |}).

(** [PATCH /badges/:id/verify] *)
Definition patch_verify (id : string) (body : jsobject) : handler :=
  let verified := prop body "verified" in
  let k := λ result_rows,
    if bool_decide (length result_rows = 0%nat) then not_found
    else Json 200 {| success := true; message := None;
                     data := first_row result_rows |} in
  if typeof_boolean verified then Query (UpdateVerified verified (JStr id)) k
  else Query (UpdateNotVerified (JStr id)) k.

(** [DELETE /badges/:id] *)
Definition delete_badge (id : string) : handler :=
  Query (DeleteById (JStr id))
    (λ result_rows,
       if bool_decide (length result_rows = 0%nat) then not_found
       else Json 200 {| success := true; message := Some "Badge deleted";
                        data := first_row result_rows |}).

(** A handler run at server time [now] against the table. *)
Definition run (h : handler) (now : Z) (d : db) : response * db :=
  match h with
  | Respond r => (r, d)
  | Query q k =>
      match pool_query now q d with
      | (PgOk result_rows, d') => (k result_rows, d')
      | (PgErr err, d') => (Next err, d')
      end
  end.

(** The number of [pool.query] calls of a handler. *)
Definition storage_calls (h : handler) : nat :=
  match h with
  | Respond _ => 0
  | Query _ _ => 1
  end.

Inductive request :=
  | POST_badges (body : jsobject)
  | GET_badges (query : jsobject)
  | GET_badge (id : string)
  | GET_student_badges (studentId : string)
  | PUT_badge (id : string) (body : jsobject)
  | PATCH_verify (id : string) (body : jsobject)
  | DELETE_badge (id : string).

Definition route (req : request) : handler :=
  match req with
  | POST_badges body => post_badges body
  | GET_badges query => get_badges query
  | GET_badge id => get_badge id
  | GET_student_badges studentId => get_student_badges studentId
  | PUT_badge id body => put_badge id body
  | PATCH_verify id body => patch_verify id body
  | DELETE_badge id => delete_badge id
  end.

(** Histories the server's clock allows: time does not run backwards, and
    the table starts empty.  [reachable t d]: [d] is the table at a moment
    when the clock has reached [t]. *)
Inductive reachable : Z → db → Prop :=
  | reachable_empty t : reachable t empty_db
  | reachable_step t d now req :
      reachable t d → t ≤ now → reachable now (run (route req) now d).2.

(** * The vocabulary of the properties *)

(** ** Answers *)

(** 200 with an array of rows, and 200 with one row. *)
Definition ok_rows (l : list badge) : response :=
  Json 200 {| success := true; message := None; data := Rows l |}.

Definition ok_row (r : badge) : response :=
  Json 200 {| success := true; message := None; data := Row r |}.

(** The answer of [DELETE /badges/:id] for the row it removed. *)
Definition deleted (r : badge) : response :=
  Json 200 {| success := true; message := Some "Badge deleted"; data := Row r |}.

(** The two validation answers. *)
Definition required_fields_missing : response :=
  Json 400 {| success := false;
              message := Some "student_id and badge_name are required";
              data := NoData |}.

Definition no_fields_provided : response :=
  Json 400 {| success := false;
              message := Some "No fields provided to update";
              data := NoData |}.

(** A handler that derives its 404 from the empty result of its one
    query. *)
Definition not_found_on_empty_result (h : handler) : Prop :=
  match h with
  | Query _ k => k [] = not_found
  | Respond _ => False
  end.

(** ** Rows *)

(** The row [POST /badges] stores for a body whose [student_id] reads as
    [sid] and whose [badge_name] reads as [name]. *)
Definition inserted_row now d (sid : Z) (name : string) (body : jsobject) : badge :=
  {| id := skill_badges_id_seq d;
     student_id := sid;
     badge_name := name;
     badge_description := prepareValue (js_or (prop body "badge_description") JNull);
     verified :=
       match body !! "verified" with
       | Some (JBool b) => b
       | _ => false
       end;
     created_at := now;
     updated_at := now |}.

(** The row as an [UPDATE] of [verified] leaves it: the new flag, and the
    trigger's [updated_at]. *)
Definition with_verified (b : bool) (now : Z) (r : badge) : badge :=
  {| id := id r; student_id := student_id r; badge_name := badge_name r;
     badge_description := badge_description r; verified := b;
     created_at := created_at r; updated_at := now |}.

(** The table with the row of primary key [n] replaced and every other
    row kept. *)
Definition replace_row (n : Z) (r' : badge) (d : db) : db :=
  with_rows d ((λ r, if bool_decide (id r = n) then r' else r) <$> rows d).

(** ** Values and columns *)

(** The column named [key] can read the value at all ([NULL] included):
    binding the statement does not raise. *)
Definition readable (key : string) (v : jsval) : bool :=
  match bind_assignment (key, v) with
  | PgOk _ => true
  | PgErr _ => false
  end.

(** After blanks and an optional sign the text does not begin with a
    decimal digit: it spells no integer, in any grammar of integers. *)
Definition no_leading_digit (s : string) : bool :=
  negb (starts_with_digit (after_sign (ltrim s))).

(** A value that cannot be read at the column the key names, whatever the
    version of the server: a text that is not of the encoding, under
    [verified] a text that spells no boolean, under [student_id] a text
    that does not begin as a number. *)
Definition never_readable (key : string) (v : jsval) : bool :=
  match prepareValue v with
  | None => false
  | Some text =>
      negb (valid_utf8 text)
      || bool_decide (key = "verified")
         && match boolean_in (Some text) with PgOk _ => false | PgErr _ => true end
      || bool_decide (key = "student_id") && no_leading_digit text
  end.

(** The column named [key] takes the value: its input function reads the
    parameter, and the result is not [NULL] where the column is declared
    [NOT NULL]. *)
Definition accepts (key : string) (v : jsval) : bool :=
  match bind_assignment (key, v) with
  | PgOk (SetBadgeName None) | PgOk (SetVerified None) | PgOk (SetStudentId None) => false
  | PgOk _ => true
  | PgErr _ => false
  end.

(** What a successful partial update makes of row [r0]: a column whose key
    the body owns holds the column's reading of the body's value, a column
    whose key the body lacks keeps the value of [r0]; [id] and
    [created_at] are kept and [updated_at] is the server time. *)
Definition presence_based_update (body : jsobject) (now : Z) (r0 r' : badge) : Prop :=
  match body !! "badge_name" with
  | Some v => varchar_in 255 (prepareValue v) = PgOk (Some (badge_name r'))
  | None => badge_name r' = badge_name r0
  end
  ∧ match body !! "badge_description" with
    | Some v => text_in (prepareValue v) = PgOk (badge_description r')
    | None => badge_description r' = badge_description r0
    end
  ∧ match body !! "verified" with
    | Some v => boolean_in (prepareValue v) = PgOk (Some (verified r'))
    | None => verified r' = verified r0
    end
  ∧ match body !! "student_id" with
    | Some v => bigint_in (prepareValue v) = PgOk (Some (student_id r'))
    | None => student_id r' = student_id r0
    end
  ∧ id r' = id r0
  ∧ created_at r' = created_at r0
  ∧ updated_at r' = now.

(** ** Steps and invariants of the table *)

(** What any statement of the router may do to a stored row at server
    time [now]: keep its key and its [created_at], and either keep
    [updated_at] or set it to [now]. *)
Definition touched (now : Z) (r r' : badge) : Prop :=
  id r' = id r ∧ created_at r' = created_at r
  ∧ (updated_at r' = updated_at r ∨ updated_at r' = now).

(** A [SET] list that names none of [id], [created_at], [updated_at]. *)
Definition keeps_key_and_times (set : badge → pg_result badge) : Prop :=
  ∀ r r1, set r = PgOk r1 →
    id r1 = id r ∧ created_at r1 = created_at r ∧ updated_at r1 = updated_at r.

(** How one request changes the table: stored rows are touched in place,
    or one fresh row is appended under the next key with both timestamps
    at [now], or some rows are removed. *)
Definition table_step (now : Z) (d d' : db) : Prop :=
  skill_badges_id_seq d ≤ skill_badges_id_seq d'
  ∧ (Forall2 (touched now) (rows d) (rows d')
     ∨ (∃ r, rows d' = rows d ++ [r] ∧ id r = skill_badges_id_seq d
             ∧ created_at r = now ∧ updated_at r = now
             ∧ skill_badges_id_seq d' = skill_badges_id_seq d + 1)
     ∨ sublist (rows d') (rows d)).

(** The invariant of the table at clock [t]: [id] is a key (the [PRIMARY
    KEY] of the schema), drawn from the sequence, and no row was updated
    before it was created or after [t]. *)
Definition table_inv (t : Z) (d : db) : Prop :=
  NoDup (id <$> rows d)
  ∧ Forall (λ r, id r < skill_badges_id_seq d
                 ∧ created_at r ≤ updated_at r ∧ updated_at r ≤ t) (rows d).

(** ** Histories and outcomes *)

(** The table after a history of requests, each served at its own server
    time, one after the other. *)
Definition serve (d : db) (h : list (Z * request)) : db :=
  foldl (λ d tr, (run (route tr.2) tr.1 d).2) d h.

(** The answer of [POST /badges] for the row it stored. *)
Definition created (r : badge) : response :=
  Json 201 {| success := true; message := None; data := Row r |}.

(** An answer with a 2xx status; [next(err)] is not one. *)
Definition succeeded (r : response) : bool :=
  match r with
  | Json status _ => bool_decide (status < 300)
  | Next _ => false
  end.

(** The requests that only read. *)
Definition is_get (req : request) : bool :=
  match req with
  | GET_badges _ | GET_badge _ | GET_student_badges _ => true
  | _ => false
  end.

(** The row [POST /badges] stores, for any value of the optional fields:
    [!!verified] and [badge_description || null] as the handler passes
    them. *)
Definition created_row now d (sid : Z) (name : string) (body : jsobject) : badge :=
  {| id := skill_badges_id_seq d;
     student_id := sid;
     badge_name := name;
     badge_description := prepareValue (js_or (prop body "badge_description") JNull);
     verified := truthy (prop body "verified");
     created_at := now;
     updated_at := now |}.

(** What the column types of the schema allow in a row: an [id] drawn from
    a sequence that starts at 1, a [student_id] in the range of [BIGINT],
    a [badge_name] of at most 255 characters ([VARCHAR(255)]). *)
Definition fits_schema (r : badge) : Prop :=
  1 ≤ id r
  ∧ - 2 ^ 63 ≤ student_id r < 2 ^ 63
  ∧ (utf8_length (badge_name r) ≤ 255)%nat.

(** A [SET] item whose value fits its column. *)
Definition fits_column (a : assignment) : Prop :=
  match a with
  | SetBadgeName (Some s) => (utf8_length s ≤ 255)%nat
  | SetStudentId (Some n) => - 2 ^ 63 ≤ n < 2 ^ 63
  | _ => True
  end.

(** ** Sample values *)

(** The string "a\u0000b" of a JSON body: three bytes, the second zero. *)
Definition description_with_nul : string :=
  String "a" (String "000" (String "b" EmptyString)).

(** ** A sample table *)

(** One badge, created at time 100 by
    [POST /badges { student_id: 1, badge_name: "Rust Basics" }]. *)
Definition rust_basics : badge :=
  {| id := 1; student_id := 1; badge_name := "Rust Basics";
     badge_description := None; verified := false;
     created_at := 100; updated_at := 100 |}.

Definition one_badge_db : db :=
  {| rows := [rust_basics]; skill_badges_id_seq := 2 |}.

(** * Properties *)

(** ** The sample table *)

Lemma one_badge_db_created :
  run (post_badges {[ "student_id" := JNum "1"; "badge_name" := JStr "Rust Basics" ]})
    100 empty_db
  = (Json 201 {| success := true; message := None; data := Row rust_basics |},
     one_badge_db).
Proof. reflexivity. Qed.

Lemma one_badge_db_reachable : reachable 100 one_badge_db.
Proof.
  pose proof (reachable_step 0 empty_db 100
                (POST_badges {[ "student_id" := JNum "1";
                                "badge_name" := JStr "Rust Basics" ]})
                (reachable_empty 0) ltac:(lia)) as H.
  cbn [route] in H. by rewrite one_badge_db_created in H.
Qed.

Lemma one_badge_db_key : NoDup (id <$> rows one_badge_db).
Proof. apply NoDup_singleton. Qed.

Lemma one_badge_db_row : rust_basics ∈ rows one_badge_db.
Proof. by apply list_elem_of_singleton. Qed.

Lemma path_1 : bigint_in (Some "1") = PgOk (Some 1).
Proof. vm_compute. reflexivity. Qed.

(** ** Own properties and the collected [SET] list *)

Lemma hasOwnProperty_Some (o : jsobject) key v :
  o !! key = Some v → hasOwnProperty o key = true ∧ prop o key = v.
Proof. intros H. unfold hasOwnProperty, prop. rewrite H. by split. Qed.

Lemma hasOwnProperty_None (o : jsobject) key :
  o !! key = None → hasOwnProperty o key = false ∧ prop o key = JUndefined.
Proof.
  intros H. unfold hasOwnProperty, prop. rewrite H. split; [|done].
  apply bool_decide_eq_false. by intros [? ?].
Qed.

(** The loop keeps the order of [allowed] and takes exactly the keys the
    body owns, each with the body's value. *)
Lemma collect_fields_spec (body : jsobject) :
  collect_fields body = omap (λ key, pair key <$> body !! key) allowed.
Proof.
  unfold collect_fields, allowed, hasOwnProperty, prop. simpl.
  destruct (body !! "badge_name"), (body !! "badge_description"),
    (body !! "verified"), (body !! "student_id"); reflexivity.
Qed.

Lemma collect_fields_nil (body : jsobject) :
  collect_fields body = [] ↔ ∀ key, key ∈ allowed → body !! key = None.
Proof.
  rewrite collect_fields_spec. unfold allowed. split.
  - intros H key Hin. simpl in H.
    destruct (body !! "badge_name") eqn:H1; [discriminate|].
    destruct (body !! "badge_description") eqn:H2; [discriminate|].
    destruct (body !! "verified") eqn:H3; [discriminate|].
    destruct (body !! "student_id") eqn:H4; [discriminate|].
    repeat (apply elem_of_cons in Hin as [->|Hin]; [done|]).
    by apply elem_of_nil in Hin.
  - intros H. simpl.
    rewrite !H by (repeat first [by left | right]). reflexivity.
Qed.

(** ** Statements that select by [id] *)

Lemma filter_id_is_nil (l : list badge) n :
  (∀ r, r ∈ l → id r ≠ n) → List.filter (id_is (Some n)) l = [].
Proof.
  induction l as [|r l' IH]; intros H; [done|]. simpl.
  rewrite bool_decide_eq_false_2 by (apply H; left).
  apply IH. intros r' Hr'. apply H. by right.
Qed.

Lemma filter_id_is_unique (l : list badge) n r0 :
  NoDup (id <$> l) → r0 ∈ l → id r0 = n →
  List.filter (id_is (Some n)) l = [r0].
Proof.
  induction l as [|r l' IH]; intros Hnd Hin Hid; [by apply elem_of_nil in Hin|].
  rewrite fmap_cons in Hnd. apply NoDup_cons in Hnd as [Hnotin Hnd].
  apply elem_of_cons in Hin as [<-|Hin]; simpl.
  - rewrite bool_decide_eq_true_2 by done. f_equal.
    apply filter_id_is_nil. intros r Hr Heq. apply Hnotin.
    rewrite Hid, <- Heq. by apply list_elem_of_fmap_2.
  - rewrite bool_decide_eq_false_2; [by apply IH|].
    intros Heq. apply Hnotin. rewrite Heq, <- Hid. by apply list_elem_of_fmap_2.
Qed.

Lemma same_id_same_row (l : list badge) r1 r2 :
  NoDup (id <$> l) → r1 ∈ l → r2 ∈ l → id r1 = id r2 → r1 = r2.
Proof.
  intros Hnd H1 H2 Heq.
  pose proof (filter_id_is_unique l (id r2) r2 Hnd H2 eq_refl) as Hf.
  assert (Hr : In r1 (List.filter (id_is (Some (id r2))) l)).
  { apply filter_In. split; [by apply list_elem_of_In|].
    simpl. by apply bool_decide_eq_true_2. }
  rewrite Hf in Hr. by destruct Hr as [->|[]].
Qed.

Lemma replace_row_ids n r' d :
  id r' = n → id <$> rows (replace_row n r' d) = id <$> rows d.
Proof.
  intros Hn. unfold replace_row, with_rows. cbn [rows].
  rewrite <- list_fmap_compose. apply list_fmap_ext. intros i r _. simpl.
  case_bool_decide; congruence.
Qed.

Lemma replace_row_elem n r0 r' d :
  r0 ∈ rows d → id r0 = n → r' ∈ rows (replace_row n r' d).
Proof.
  intros Hin Hn. unfold replace_row, with_rows. cbn [rows].
  apply list_elem_of_fmap. exists r0. by rewrite bool_decide_eq_true_2.
Qed.

Lemma replace_row_twice n r1 r2 d :
  id r1 = n → replace_row n r2 (replace_row n r1 d) = replace_row n r2 d.
Proof.
  intros Hn. unfold replace_row, with_rows. cbn [rows skill_badges_id_seq].
  f_equal. rewrite <- list_fmap_compose. apply list_fmap_ext. intros i r _. simpl.
  repeat case_bool_decide; congruence.
Qed.

Lemma replace_row_same n r0 d :
  NoDup (id <$> rows d) → r0 ∈ rows d → id r0 = n → replace_row n r0 d = d.
Proof.
  intros Hnd Hin Hn. unfold replace_row, with_rows. destruct d as [l s].
  cbn [rows skill_badges_id_seq] in *. f_equal.
  rewrite <- (list_fmap_id l) at 2. apply list_fmap_ext. intros i r Hr. simpl.
  case_bool_decide; [|done].
  apply (same_id_same_row l); [done..| |congruence].
  by apply list_elem_of_lookup_2 in Hr.
Qed.

(** An [UPDATE] whose [SET] list cannot fail on the selected rows maps the
    heap row by row and returns the rows it selected, in heap order. *)
Lemma update_rows_total now set g key (l : list badge) :
  (∀ r, r ∈ l → id_is key r = true → set r = PgOk (g r)) →
  update_rows now set key l =
    PgOk ((λ r, if id_is key r then update_updated_at_column now (g r) else r) <$> l,
          (λ r, update_updated_at_column now (g r)) <$> List.filter (id_is key) l).
Proof.
  induction l as [|r l' IH]; intros H; [done|]. simpl.
  rewrite IH by (intros r' Hr'; apply H; by right).
  destruct (id_is key r) eqn:E; [|done].
  rewrite (H r) by (done || left). done.
Qed.

(** No selected row: the heap is left as it is and nothing is returned. *)
Lemma update_rows_no_match now set n (l : list badge) :
  (∀ r, r ∈ l → id r ≠ n) → update_rows now set (Some n) l = PgOk (l, []).
Proof.
  induction l as [|r l' IH]; intros H; [done|]. simpl.
  rewrite bool_decide_eq_false_2 by (apply H; left).
  rewrite IH by (intros r' Hr'; apply H; by right). done.
Qed.

(** One selected row under a primary key: every other row is kept. *)
Lemma update_rows_unique now set g n r0 (l : list badge) :
  NoDup (id <$> l) → r0 ∈ l → id r0 = n → set r0 = PgOk (g r0) →
  update_rows now set (Some n) l =
    PgOk ((λ r, if bool_decide (id r = n)
                then update_updated_at_column now (g r0) else r) <$> l,
          [update_updated_at_column now (g r0)]).
Proof.
  intros Hnd Hin Hid Hset.
  assert (Hsel : ∀ r, r ∈ l → id r = n → r = r0).
  { intros r Hr Hrn.
    pose proof (filter_id_is_unique l n r0 Hnd Hin Hid) as Hf.
    assert (Hrf : In r (List.filter (id_is (Some n)) l)).
    { apply filter_In. split; [by apply list_elem_of_In|].
      simpl. by apply bool_decide_eq_true_2. }
    rewrite Hf in Hrf. destruct Hrf as [->|[]]. done. }
  rewrite (update_rows_total now set (λ _, g r0)).
  - rewrite (filter_id_is_unique l n r0) by done. done.
  - intros r Hr Hsome. simpl in Hsome. apply bool_decide_eq_true_1 in Hsome.
    by rewrite (Hsel r Hr Hsome).
Qed.

(** ** Reading and coercing parameters *)

Lemma text_in_ok text t : text_in text = PgOk t → t = text.
Proof.
  unfold text_in, pg_client_to_server. destruct text as [s|]; [|by intros [= <-]].
  destruct (valid_utf8 s); [by intros [= <-]|discriminate].
Qed.

Lemma varchar_in_ok n text r :
  varchar_in n text = PgOk r → text_in text = PgOk text ∧ varchar_typmod n text = PgOk r.
Proof.
  unfold varchar_in. destruct (text_in text) as [t|] eqn:E; [|discriminate].
  cbn [pg_bind]. rewrite (text_in_ok text t E). by split.
Qed.

Lemma boolean_in_bool b : boolean_in (prepareValue (JBool b)) = PgOk (Some b).
Proof. by destruct b. Qed.

(** The result of an accepted [INSERT]. *)
Lemma pool_query_insert now d p1 p2 p3 p4 sid name desc ver :
  bigint_in (prepareValue p1) = PgOk (Some sid) →
  varchar_in 255 (prepareValue p2) = PgOk (Some name) →
  text_in (prepareValue p3) = PgOk desc →
  boolean_in (prepareValue p4) = PgOk (Some ver) →
  let r := {| id := skill_badges_id_seq d; student_id := sid; badge_name := name;
              badge_description := desc; verified := ver;
              created_at := now; updated_at := now |} in
  pool_query now (InsertBadge p1 p2 p3 p4) d
  = (PgOk [r], {| rows := rows d ++ [r];
                  skill_badges_id_seq := skill_badges_id_seq d + 1 |}).
Proof.
  intros H1 H2 H3 H4 r. apply varchar_in_ok in H2 as [H2 H2'].
  cbn [pool_query]. rewrite H1, H2, H3, H4. cbn [pg_bind]. by rewrite H2'.
Qed.

(** A [SET] list is bound item by item exactly when every item is read
    and every read value is coerced. *)
Lemma bind_assignments_split fields asgs :
  pg_mapM bind_assignment fields = PgOk asgs ↔
  ∃ reads, pg_mapM read_assignment fields = PgOk reads
           ∧ pg_mapM coerce_assignment reads = PgOk asgs.
Proof.
  revert asgs. induction fields as [|x l IH]; intros asgs; simpl.
  { split; [intros [= <-]; by exists []|]. by intros (reads & [= <-] & [= <-]). }
  unfold bind_assignment at 1.
  destruct (read_assignment x) as [a|] eqn:Ea; cbn [pg_bind].
  2: { split; [discriminate|]. by intros (? & ? & ?). }
  destruct (coerce_assignment a) as [a'|] eqn:Ec; cbn [pg_bind].
  - destruct (pg_mapM bind_assignment l) as [asgs'|] eqn:El; cbn [pg_bind].
    + destruct (proj1 (IH asgs') eq_refl) as (reads & -> & Hc). cbn [pg_bind].
      split.
      * intros [= <-]. exists (a :: reads). split; [done|]. simpl. by rewrite Ec, Hc.
      * intros (reads' & [= <-] & H). simpl in H. rewrite Ec, Hc in H. exact H.
    + split; [discriminate|]. intros (reads' & Hr & Hc).
      destruct (pg_mapM read_assignment l) as [reads|] eqn:Er; [|discriminate].
      simpl in Hr. injection Hr as <-. simpl in Hc. rewrite Ec in Hc. simpl in Hc.
      destruct (pg_mapM coerce_assignment reads) as [asgs'|] eqn:Ec'; [|discriminate].
      assert (Hb : PgErr (A:=list assignment) e = PgOk asgs')
        by (apply (proj2 (IH asgs')); eauto).
      discriminate.
  - split; [discriminate|]. intros (reads' & Hr & Hc).
    destruct (pg_mapM read_assignment l) as [reads|]; [|discriminate].
    simpl in Hr. injection Hr as <-. simpl in Hc. by rewrite Ec in Hc.
Qed.

(** The [UPDATE] of a partial update whose [SET] list binds. *)
Lemma pool_query_update_set now d fields p_id asgs :
  pg_mapM bind_assignment fields = PgOk asgs →
  pool_query now (UpdateSet fields p_id) d
  = update now (PgOk (assign_all asgs)) (bigint_in (prepareValue p_id)) d.
Proof.
  intros H. apply bind_assignments_split in H as (reads & Hr & Hc).
  cbn [pool_query]. rewrite Hr. cbn [pg_bind].
  destruct (bigint_in (prepareValue p_id)) as [key|e]; cbn [pg_bind]; [|done].
  by rewrite Hc.
Qed.

(** ... and whose [SET] list does not: the statement raises, whatever the
    id. *)
Lemma pool_query_update_set_error now d fields p_id e :
  pg_mapM bind_assignment fields = PgErr e →
  ∃ e', pool_query now (UpdateSet fields p_id) d = (PgErr e', d).
Proof.
  intros H. cbn [pool_query].
  destruct (pg_mapM read_assignment fields) as [reads|e1] eqn:Hr; cbn [pg_bind];
    [|by eexists].
  destruct (bigint_in (prepareValue p_id)) as [key|e2]; cbn [pg_bind]; [|by eexists].
  destruct (pg_mapM coerce_assignment reads) as [asgs|e3] eqn:Hc; cbn [pg_bind];
    [|by eexists].
  assert (pg_mapM bind_assignment fields = PgOk asgs)
    by (apply bind_assignments_split; eauto).
  congruence.
Qed.

(** Either way the statement is an [update] with a [SET] list that keeps
    the key and the timestamps, or an error that leaves the table. *)
Lemma pool_query_update_set_cases now d fields p_id :
  (∃ asgs, pool_query now (UpdateSet fields p_id) d
           = update now (PgOk (assign_all asgs)) (bigint_in (prepareValue p_id)) d
           ∧ pg_mapM bind_assignment fields = PgOk asgs)
  ∨ ∃ e, pool_query now (UpdateSet fields p_id) d = (PgErr e, d).
Proof.
  destruct (pg_mapM bind_assignment fields) as [asgs|e] eqn:E.
  - left. exists asgs. split; [by apply pool_query_update_set|done].
  - right. by apply (pool_query_update_set_error now d fields p_id e).
Qed.

(** ** Listing *)

Global Instance newer_first_total : Total newer_first.
Proof. intros a b. unfold newer_first. lia. Qed.

Global Instance newer_first_trans : Transitive newer_first.
Proof. intros a b c. unfold newer_first. lia. Qed.

Lemma order_by_created_at_desc_sorted l :
  Sorted newer_first (order_by_created_at_desc l).
Proof. apply Sorted_merge_sort, _. Qed.

Lemma order_by_created_at_desc_perm l : order_by_created_at_desc l ≡ₚ l.
Proof. apply merge_sort_Permutation. Qed.

Lemma filter_student_id_is (l : list badge) n :
  List.filter (student_id_is (Some n)) l = filter (λ r, student_id r = n) l.
Proof.
  induction l as [|r l' IH]; [done|]. simpl. rewrite filter_cons, IH.
  unfold bool_decide. by destruct (decide_rel _ _ _), (decide _).
Qed.

Lemma bigint_in_truthy s n :
  bigint_in (Some s) = PgOk (Some n) → truthy (JStr s) = true.
Proof. by destruct s. Qed.

(** C6.  [GET /badges] for any table: with a [student_id] filter naming
    student [n] the answer is 200 with exactly the rows of that student
    (a permutation of them), newest [created_at] first; without a filter
    it is every row, in the same order; the table is not changed, and when
    nothing matches the answer is still 200, with the empty array. *)
Theorem get_badges_filtered_newest_first now d (query : jsobject) :
  (∀ s n,
     query !! "student_id" = Some (JStr s) →
     bigint_in (Some s) = PgOk (Some n) →
     ∃ l, run (get_badges query) now d = (ok_rows l, d)
          ∧ l ≡ₚ filter (λ r, student_id r = n) (rows d)
          ∧ Sorted newer_first l
          ∧ ((∀ r, r ∈ rows d → student_id r ≠ n) → l = []))
  ∧ (query !! "student_id" = None →
     ∃ l, run (get_badges query) now d = (ok_rows l, d)
          ∧ l ≡ₚ rows d
          ∧ Sorted newer_first l
          ∧ (rows d = [] → l = [])).
Proof.
  split.
  - intros s n Hq Hn.
    exists (order_by_created_at_desc (filter (λ r, student_id r = n) (rows d))).
    split; [|split; [|split]].
    + unfold get_badges, prop. rewrite Hq. simpl default.
      rewrite (bigint_in_truthy s n Hn). unfold run, pool_query.
      change (prepareValue (JStr s)) with (Some s). rewrite Hn.
      by rewrite filter_student_id_is.
    + apply order_by_created_at_desc_perm.
    + apply order_by_created_at_desc_sorted.
    + intros Hnone.
      destruct (filter (λ r, student_id r = n) (rows d)) as [|r l'] eqn:E; [done|].
      assert (Hr : r ∈ filter (λ r, student_id r = n) (rows d)) by (rewrite E; left).
      apply list_elem_of_filter in Hr as [Hr1 Hr2]. by destruct (Hnone r Hr2).
  - intros Hq. exists (order_by_created_at_desc (rows d)).
    split; [|split; [|split]].
    + unfold get_badges, prop. by rewrite Hq.
    + apply order_by_created_at_desc_perm.
    + apply order_by_created_at_desc_sorted.
    + by intros ->.
Qed.

Lemma get_badges_filtered_newest_first_witness :
  ∃ l, run (get_badges {[ "student_id" := JStr "7" ]}) 100 empty_db
       = (ok_rows l, empty_db)
       ∧ l ≡ₚ filter (λ r, student_id r = 7) (rows empty_db)
       ∧ Sorted newer_first l
       ∧ ((∀ r, r ∈ rows empty_db → student_id r ≠ 7) → l = []).
Proof.
  apply (proj1 (get_badges_filtered_newest_first 100 empty_db
                  {[ "student_id" := JStr "7" ]}) "7" 7); reflexivity.
Defined.

(** C10.  [GET /badges] filters only on a truthy [student_id]: which
    statement is sent is decided by the truthiness of the query value, and
    a request whose [student_id] is the empty string runs the unfiltered
    statement and gets every row of the table, newest first. *)
Theorem get_badges_empty_student_id_unfiltered now d (query : jsobject) :
  (∃ k, get_badges query =
          Query (if truthy (prop query "student_id")
                 then SelectByStudent (prop query "student_id")
                 else SelectAll) k)
  ∧ get_badges (<["student_id" := JStr ""]> query) = get_badges ∅
  ∧ run (get_badges (<["student_id" := JStr ""]> query)) now d
    = (ok_rows (order_by_created_at_desc (rows d)), d)
  ∧ order_by_created_at_desc (rows d) ≡ₚ rows d.
Proof.
  split; [|split; [|split]].
  - unfold get_badges. destruct (truthy _); eauto.
  - unfold get_badges, prop. by rewrite lookup_insert_eq, lookup_empty.
  - unfold get_badges, prop. by rewrite lookup_insert_eq.
  - apply order_by_created_at_desc_perm.
Qed.

(** ** Creating *)

(** C3.  [POST /badges] with [student_id] or [badge_name] absent or falsy,
    whatever else the body holds: the handler answers 400 without a call
    to the pool, and the table is left as it was. *)
Theorem post_badges_requires_student_id_and_badge_name now d (body : jsobject) :
  truthy (prop body "student_id") = false ∨ truthy (prop body "badge_name") = false →
  post_badges body = Respond required_fields_missing
  ∧ storage_calls (post_badges body) = 0%nat
  ∧ run (post_badges body) now d = (required_fields_missing, d).
Proof.
  intros H.
  assert (Hh : post_badges body = Respond required_fields_missing).
  { unfold post_badges. destruct H as [-> | ->]; [done|].
    by rewrite orb_true_r. }
  by rewrite Hh.
Qed.

Lemma post_badges_requires_student_id_and_badge_name_witness :
  run (post_badges {[ "badge_name" := JStr "Rust Basics"; "student_id" := JNum "0";
                      "verified" := JBool true ]}) 100 empty_db
  = (required_fields_missing, empty_db).
Proof.
  apply (post_badges_requires_student_id_and_badge_name 100 empty_db
           {[ "badge_name" := JStr "Rust Basics"; "student_id" := JNum "0";
              "verified" := JBool true ]}).
  left. vm_compute. reflexivity.
Defined.

(** C8 (as amended).  [POST /badges] with a truthy [student_id] that
    reads as the integer [sid], a truthy [badge_name] that fits the column
    as [name], a [badge_description] that is falsy or a text the column
    can hold, and with [verified] omitted or a boolean: the answer is 201
    with the full row that was appended to the table, whose [verified] is
    [false] when the field is omitted and the supplied boolean
    otherwise. *)
Theorem post_badges_verified_default now d (body : jsobject) sid name desc :
  truthy (prop body "student_id") = true →
  bigint_in (prepareValue (prop body "student_id")) = PgOk (Some sid) →
  truthy (prop body "badge_name") = true →
  varchar_in 255 (prepareValue (prop body "badge_name")) = PgOk (Some name) →
  text_in (prepareValue (js_or (prop body "badge_description") JNull)) = PgOk desc →
  (body !! "verified" = None ∨ ∃ b, body !! "verified" = Some (JBool b)) →
  let r := inserted_row now d sid name body in
  run (post_badges body) now d
  = (Json 201 {| success := true; message := None; data := Row r |},
     {| rows := rows d ++ [r]; skill_badges_id_seq := skill_badges_id_seq d + 1 |})
  ∧ badge_description r = desc
  ∧ (body !! "verified" = None → verified r = false)
  ∧ (∀ b, body !! "verified" = Some (JBool b) → verified r = b).
Proof.
  intros Hs Hsid Hn Hname Hdesc Hv r. split; [|split; [|split]].
  - unfold post_badges. rewrite Hs, Hn. cbn [negb orb run].
    assert (Hb : truthy (prop body "verified") = verified r).
    { subst r. unfold inserted_row, prop. cbn [verified].
      destruct Hv as [-> | [b ->]]; [done|]. by destruct b. }
    rewrite (pool_query_insert now d _ _ _ _ sid name desc (verified r) Hsid Hname Hdesc)
      by (rewrite Hb; apply boolean_in_bool).
    by rewrite (text_in_ok _ _ Hdesc).
  - subst r. unfold inserted_row. cbn [badge_description].
    symmetry. by apply text_in_ok.
  - intros Hnone. subst r. unfold inserted_row. cbn [verified]. by rewrite Hnone.
  - intros b Hb. subst r. unfold inserted_row. cbn [verified]. by rewrite Hb.
Qed.

Lemma post_badges_verified_default_witness :
  (run (post_badges {[ "student_id" := JNum "1"; "badge_name" := JStr "Rust Basics" ]})
     100 empty_db).1
  = Json 201 {| success := true; message := None;
                data := Row {| id := 1; student_id := 1; badge_name := "Rust Basics";
                               badge_description := None; verified := false;
                               created_at := 100; updated_at := 100 |} |}.
Proof.
  pose proof (post_badges_verified_default 100 empty_db
                {[ "student_id" := JNum "1"; "badge_name" := JStr "Rust Basics" ]}
                1 "Rust Basics" None eq_refl eq_refl eq_refl eq_refl eq_refl
                (or_introl eq_refl)) as [H _].
  rewrite H. reflexivity.
Defined.

(** C8, as stated, fails: with a valid [student_id] and [badge_name], a
    [badge_description] that holds the zero character is no text the
    server takes; the statement raises when it is bound, the handler
    passes the error on, and no row is stored. *)
Lemma post_badges_description_with_nul_rejected :
  run (post_badges {[ "student_id" := JNum "1"; "badge_name" := JStr "Rust Basics";
                      "badge_description" := JStr description_with_nul ]})
    100 empty_db
  = (Next character_not_in_repertoire, empty_db).
Proof. vm_compute. reflexivity. Qed.

(** ** Updating *)

Lemma put_badge_nothing_to_update path_id (body : jsobject) :
  (∀ key, key ∈ allowed → body !! key = None) →
  put_badge path_id body = Respond no_fields_provided.
Proof.
  intros H. apply collect_fields_nil in H. unfold put_badge. by rewrite H.
Qed.

(** C7.  [PUT /badges/:id] with a body that owns none of the keys
    [badge_name], [badge_description], [verified], [student_id] (the empty
    body among them): the handler answers 400 "No fields provided to
    update" without a call to the pool; the table is left as it was. *)
Theorem put_badge_without_fields now d path_id (body : jsobject) :
  (∀ key, key ∈ allowed → body !! key = None) →
  put_badge path_id body = Respond no_fields_provided
  ∧ storage_calls (put_badge path_id body) = 0%nat
  ∧ run (put_badge path_id body) now d = (no_fields_provided, d).
Proof.
  intros H. by rewrite (put_badge_nothing_to_update path_id body H).
Qed.

Lemma put_badge_without_fields_witness :
  run (put_badge "1" ∅) 100 empty_db = (no_fields_provided, empty_db).
Proof.
  apply (put_badge_without_fields 100 empty_db "1" ∅).
  intros key _. apply lookup_empty.
Defined.

(** ** Verifying *)

Lemma patch_verify_run now d path_id n r0 (body : jsobject) :
  bigint_in (Some path_id) = PgOk (Some n) →
  NoDup (id <$> rows d) → r0 ∈ rows d → id r0 = n →
  let r' := with_verified
              match prop body "verified" with
              | JBool b => b
              | _ => negb (verified r0)
              end now r0 in
  run (patch_verify path_id body) now d = (ok_row r', replace_row n r' d).
Proof.
  intros Hid Hnd Hin Hn r'. unfold patch_verify.
  destruct (prop body "verified") as [| |b| | |] eqn:Hv; cbn [typeof_boolean];
    unfold run, pool_query, update;
    change (prepareValue (JStr path_id)) with (Some path_id); rewrite Hid;
    cbn [pg_bind pg_map].
  3: { replace (boolean_in (prepareValue (JBool b))) with (PgOk (A:=option bool) (Some b))
         by (by destruct b).
       cbn [pg_bind pg_map].
       by rewrite (update_rows_unique now _ (with_verified b (updated_at r0)) n r0). }
  all: by rewrite (update_rows_unique now _
                     (λ r, with_verified (negb (verified r)) (updated_at r) r) n r0).
Qed.

(** C2.  [PATCH /badges/:id/verify] on the id of a stored row: one
    statement is sent, chosen from the body alone; when [verified] is a
    boolean the row's flag becomes that boolean, otherwise (absent, or of
    another type) it becomes the negation of the stored flag, taken by the
    statement itself; the answer is 200 with the updated row, which is the
    row now stored under that id. *)
Theorem patch_verify_sets_or_toggles now d path_id n r0 (body : jsobject) :
  bigint_in (Some path_id) = PgOk (Some n) →
  NoDup (id <$> rows d) → r0 ∈ rows d → id r0 = n →
  (∃ k, patch_verify path_id body
        = Query (if typeof_boolean (prop body "verified")
                 then UpdateVerified (prop body "verified") (JStr path_id)
                 else UpdateNotVerified (JStr path_id)) k)
  ∧ ∃ r', run (patch_verify path_id body) now d = (ok_row r', replace_row n r' d)
          ∧ r' ∈ rows (replace_row n r' d)
          ∧ (∀ b, body !! "verified" = Some (JBool b) → r' = with_verified b now r0)
          ∧ (body !! "verified" = None → r' = with_verified (negb (verified r0)) now r0)
          ∧ (∀ v, body !! "verified" = Some v → typeof_boolean v = false →
                  r' = with_verified (negb (verified r0)) now r0).
Proof.
  intros Hid Hnd Hin Hn. split.
  { unfold patch_verify. destruct (typeof_boolean _); eauto. }
  eexists. split; [by apply (patch_verify_run now d path_id n r0)|].
  split; [|split; [|split]].
  - unfold replace_row, with_rows. cbn [rows].
    apply list_elem_of_fmap. exists r0. by rewrite bool_decide_eq_true_2.
  - intros b Hb. unfold prop. by rewrite Hb.
  - intros Hb. unfold prop. by rewrite Hb.
  - intros v Hb Hv. unfold prop. rewrite Hb. by destruct v.
Qed.

Lemma patch_verify_sets_or_toggles_witness :
  ∃ r', run (patch_verify "1" {[ "verified" := JBool true ]}) 300 one_badge_db
        = (ok_row r', replace_row 1 r' one_badge_db)
        ∧ r' = with_verified true 300 rust_basics.
Proof.
  destruct (patch_verify_sets_or_toggles 300 one_badge_db "1" 1 rust_basics
              {[ "verified" := JBool true ]} path_1 one_badge_db_key
              one_badge_db_row eq_refl) as (_ & r' & Hrun & _ & Hbool & _).
  exists r'. split; [exact Hrun|]. apply Hbool. apply lookup_singleton_eq.
Defined.

(** C9.  [PATCH /badges/:id/verify] twice in a row on the id of a stored
    row, both bodies without a [verified] field: the second answer is 200
    with a row whose [verified] is the flag the row had before the first
    call, and that row is the one stored. *)
Theorem patch_verify_twice_restores now1 now2 d path_id n r0 (body1 body2 : jsobject) :
  bigint_in (Some path_id) = PgOk (Some n) →
  NoDup (id <$> rows d) → r0 ∈ rows d → id r0 = n →
  body1 !! "verified" = None → body2 !! "verified" = None →
  let d1 := (run (patch_verify path_id body1) now1 d).2 in
  ∃ r2, run (patch_verify path_id body2) now2 d1 = (ok_row r2, replace_row n r2 d)
        ∧ r2 ∈ rows (replace_row n r2 d)
        ∧ verified r2 = verified r0
        ∧ r2 = with_verified (verified r0) now2 r0.
Proof.
  intros Hid Hnd Hin Hn Hb1 Hb2 d1.
  pose proof (patch_verify_run now1 d path_id n r0 body1 Hid Hnd Hin Hn) as H1.
  unfold prop in H1. rewrite Hb1 in H1. cbn [default] in H1.
  set (r1 := with_verified (negb (verified r0)) now1 r0) in *.
  assert (Hd1 : d1 = replace_row n r1 d) by (subst d1; by rewrite H1).
  assert (Hn1 : id r1 = n) by done.
  pose proof (patch_verify_run now2 d1 path_id n r1 body2 Hid) as H2.
  unfold prop in H2. rewrite Hb2 in H2. cbn [default] in H2.
  rewrite Hd1 in H2 |- *. rewrite replace_row_ids in H2 by done.
  specialize (H2 Hnd (replace_row_elem n r0 r1 d Hin Hn) Hn1).
  rewrite replace_row_twice in H2 by done.
  exists (with_verified (verified r0) now2 r0).
  split; [|split; [|split]]; [|by apply (replace_row_elem n r0)|done..].
  rewrite H2. unfold r1, with_verified. cbn [verified id student_id badge_name
    badge_description created_at]. by rewrite negb_involutive.
Qed.

Lemma patch_verify_twice_restores_witness :
  ∃ r2, run (patch_verify "1" ∅) 400
          (run (patch_verify "1" ∅) 300 one_badge_db).2
        = (ok_row r2, replace_row 1 r2 one_badge_db)
        ∧ verified r2 = verified rust_basics.
Proof.
  destruct (patch_verify_twice_restores 300 400 one_badge_db "1" 1 rust_basics ∅ ∅
              path_1 one_badge_db_key one_badge_db_row eq_refl
              (lookup_empty _) (lookup_empty _)) as (r2 & Hrun & _ & Hv & _).
  exists r2. split; [exact Hrun|exact Hv].
Defined.

(** ** Partial update *)

Lemma bind_badge_name v :
  bind_assignment ("badge_name", v)
  = pg_map SetBadgeName (varchar_in 255 (prepareValue v)).
Proof.
  unfold bind_assignment, varchar_in.
  change (read_assignment ("badge_name", v))
    with (pg_map SetBadgeName (text_in (prepareValue v))).
  by destruct (text_in (prepareValue v)).
Qed.

Lemma bind_badge_description v :
  bind_assignment ("badge_description", v)
  = pg_map SetBadgeDescription (text_in (prepareValue v)).
Proof.
  unfold bind_assignment.
  change (read_assignment ("badge_description", v))
    with (pg_map SetBadgeDescription (text_in (prepareValue v))).
  by destruct (text_in (prepareValue v)).
Qed.

Lemma bind_verified v :
  bind_assignment ("verified", v) = pg_map SetVerified (boolean_in (prepareValue v)).
Proof.
  unfold bind_assignment.
  change (read_assignment ("verified", v))
    with (pg_map SetVerified (boolean_in (prepareValue v))).
  by destruct (boolean_in (prepareValue v)).
Qed.

Lemma bind_student_id v :
  bind_assignment ("student_id", v) = pg_map SetStudentId (bigint_in (prepareValue v)).
Proof.
  unfold bind_assignment.
  change (read_assignment ("student_id", v))
    with (pg_map SetStudentId (bigint_in (prepareValue v))).
  by destruct (bigint_in (prepareValue v)).
Qed.

Lemma accepts_badge_name v :
  accepts "badge_name" v = true →
  ∃ s, varchar_in 255 (prepareValue v) = PgOk (Some s).
Proof.
  unfold accepts. rewrite bind_badge_name.
  destruct (varchar_in 255 (prepareValue v)) as [[s|]|e]; try discriminate; eauto.
Qed.

Lemma accepts_badge_description v :
  accepts "badge_description" v = true → ∃ o, text_in (prepareValue v) = PgOk o.
Proof.
  unfold accepts. rewrite bind_badge_description.
  destruct (text_in (prepareValue v)) as [o|e]; try discriminate; eauto.
Qed.

Lemma accepts_verified v :
  accepts "verified" v = true → ∃ b, boolean_in (prepareValue v) = PgOk (Some b).
Proof.
  unfold accepts. rewrite bind_verified.
  destruct (boolean_in (prepareValue v)) as [[s|]|e]; try discriminate; eauto.
Qed.

Lemma accepts_student_id v :
  accepts "student_id" v = true → ∃ n, bigint_in (prepareValue v) = PgOk (Some n).
Proof.
  unfold accepts. rewrite bind_student_id.
  destruct (bigint_in (prepareValue v)) as [[s|]|e]; try discriminate; eauto.
Qed.

Lemma put_badge_run now d path_id n r0 (body : jsobject) asgs r1 :
  bigint_in (Some path_id) = PgOk (Some n) →
  NoDup (id <$> rows d) → r0 ∈ rows d → id r0 = n →
  collect_fields body ≠ [] →
  pg_mapM bind_assignment (collect_fields body) = PgOk asgs →
  assign_all asgs r0 = PgOk r1 →
  run (put_badge path_id body) now d
  = (ok_row (update_updated_at_column now r1),
     replace_row n (update_updated_at_column now r1) d).
Proof.
  intros Hid Hnd Hin Hn Hne Hb Ha. unfold put_badge.
  rewrite bool_decide_eq_false_2 by (by destruct (collect_fields body)).
  cbn [run]. rewrite (pool_query_update_set now d _ _ asgs Hb). unfold update.
  change (prepareValue (JStr path_id)) with (Some path_id).
  rewrite Hid. cbn [pg_bind].
  by rewrite (update_rows_unique now _ (λ _, r1) n r0).
Qed.

(** C1 (as amended).  [PUT /badges/:id] on the id of a stored row, with a
    body whose values under the allowed keys are accepted by their
    columns: the answer is 200 with the row now stored under that id, in
    which exactly the allowed fields the body owns are set, each to the
    column's reading of the body's value, whether or not that differs from
    the stored one; every other field is as before, except [updated_at];
    all other rows are kept.  A body with only [badge_name] changes only
    [badge_name] and [updated_at].  A body that owns no allowed key changes
    nothing. *)
Theorem put_badge_updates_present_fields now d path_id n r0 (body : jsobject) :
  bigint_in (Some path_id) = PgOk (Some n) →
  NoDup (id <$> rows d) → r0 ∈ rows d → id r0 = n →
  (∀ key v, key ∈ allowed → body !! key = Some v → accepts key v = true) →
  ((∀ key, key ∈ allowed → body !! key = None) →
   run (put_badge path_id body) now d = (no_fields_provided, d))
  ∧ ((∃ key, key ∈ allowed ∧ is_Some (body !! key)) →
     ∃ r', run (put_badge path_id body) now d = (ok_row r', replace_row n r' d)
           ∧ r' ∈ rows (replace_row n r' d)
           ∧ presence_based_update body now r0 r')
  ∧ (∀ v, body !! "badge_name" = Some v →
          body !! "badge_description" = None → body !! "verified" = None →
          body !! "student_id" = None →
     ∃ s, varchar_in 255 (prepareValue v) = PgOk (Some s)
          ∧ (run (put_badge path_id body) now d).1
            = ok_row {| id := id r0; student_id := student_id r0; badge_name := s;
                        badge_description := badge_description r0;
                        verified := verified r0; created_at := created_at r0;
                        updated_at := now |}).
Proof.
  intros Hid Hnd Hin Hn Hacc.
  assert (Hrun : ∀ asgs r1,
    collect_fields body ≠ [] →
    pg_mapM bind_assignment (collect_fields body) = PgOk asgs →
    assign_all asgs r0 = PgOk r1 →
    run (put_badge path_id body) now d
    = (ok_row (update_updated_at_column now r1),
       replace_row n (update_updated_at_column now r1) d)).
  { intros. by eapply put_badge_run. }
  assert (H1 : ∀ v, body !! "badge_name" = Some v
                    → ∃ s, varchar_in 255 (prepareValue v) = PgOk (Some s)).
  { intros v Hv. apply accepts_badge_name, Hacc; [|done]. repeat first [by left|right]. }
  assert (H2 : ∀ v, body !! "badge_description" = Some v
                    → ∃ o, text_in (prepareValue v) = PgOk o).
  { intros v Hv. apply accepts_badge_description, Hacc; [|done].
    repeat first [by left|right]. }
  assert (H3 : ∀ v, body !! "verified" = Some v
                    → ∃ b, boolean_in (prepareValue v) = PgOk (Some b)).
  { intros v Hv. apply accepts_verified, Hacc; [|done]. repeat first [by left|right]. }
  assert (H4 : ∀ v, body !! "student_id" = Some v
                    → ∃ m, bigint_in (prepareValue v) = PgOk (Some m)).
  { intros v Hv. apply accepts_student_id, Hacc; [|done]. repeat first [by left|right]. }
  clear Hacc.
  rewrite collect_fields_spec in Hrun. unfold allowed in Hrun. cbn [omap list_omap] in Hrun.
  split; [|split].
  - intros Hnone. by rewrite (put_badge_nothing_to_update path_id body Hnone).
  - intros (key & Hkey & Hsome). unfold presence_based_update.
    destruct (body !! "badge_name") as [v1|] eqn:E1;
      [destruct (H1 v1 eq_refl) as [s1 Hs1]|];
    (destruct (body !! "badge_description") as [v2|] eqn:E2;
      [destruct (H2 v2 eq_refl) as [o2 Ho2]|]);
    (destruct (body !! "verified") as [v3|] eqn:E3;
      [destruct (H3 v3 eq_refl) as [b3 Hb3]|]);
    (destruct (body !! "student_id") as [v4|] eqn:E4;
      [destruct (H4 v4 eq_refl) as [m4 Hm4]|]);
    cbn [fmap option_fmap option_map] in Hrun;
    try (exfalso;
         repeat (apply elem_of_cons in Hkey as [->|Hkey];
                 [rewrite ?E1, ?E2, ?E3, ?E4 in Hsome; by destruct Hsome|]);
         by apply elem_of_nil in Hkey);
    (eexists; split;
      [eapply Hrun;
        [discriminate
        |cbn [pg_mapM]; rewrite ?bind_badge_name, ?bind_badge_description,
           ?bind_verified, ?bind_student_id, ?Hs1, ?Ho2, ?Hb3, ?Hm4; reflexivity
        |reflexivity]
      |split; [by apply (replace_row_elem n r0)|];
       cbn [update_updated_at_column id student_id badge_name badge_description
              verified created_at updated_at]; by repeat split]).
  - intros v E1 E2 E3 E4. destruct (H1 v E1) as [s Hs]. exists s. split; [done|].
    rewrite E1, E2, E3, E4 in Hrun. cbn [fmap option_fmap option_map] in Hrun.
    erewrite Hrun;
      [|discriminate
       |cbn [pg_mapM]; rewrite bind_badge_name, Hs; reflexivity|reflexivity].
    reflexivity.
Qed.

Lemma one_badge_db_accepts (v0 : jsval) :
  accepts "badge_name" v0 = true →
  ∀ key v, key ∈ allowed →
    ({[ "badge_name" := v0 ]} : jsobject) !! key = Some v → accepts key v = true.
Proof.
  intros H0 key v Hkey.
  apply elem_of_cons in Hkey as [->|Hkey].
  { rewrite lookup_singleton_eq. by intros [= <-]. }
  repeat (apply elem_of_cons in Hkey as [->|Hkey];
          [by rewrite lookup_singleton_ne|]).
  by apply elem_of_nil in Hkey.
Qed.

Lemma put_badge_updates_present_fields_witness :
  ∃ s, varchar_in 255 (prepareValue (JStr "Advanced Rust")) = PgOk (Some s)
       ∧ (run (put_badge "1" {[ "badge_name" := JStr "Advanced Rust" ]}) 300
            one_badge_db).1
         = ok_row {| id := id rust_basics; student_id := student_id rust_basics;
                     badge_name := s;
                     badge_description := badge_description rust_basics;
                     verified := verified rust_basics;
                     created_at := created_at rust_basics; updated_at := 300 |}.
Proof.
  assert (H1 : bigint_in (Some "1") = PgOk (Some 1)) by (vm_compute; reflexivity).
  assert (H2 : NoDup (id <$> rows one_badge_db)) by apply NoDup_singleton.
  assert (H3 : rust_basics ∈ rows one_badge_db) by (by apply list_elem_of_singleton).
  assert (H4 : accepts "badge_name" (JStr "Advanced Rust") = true)
    by (vm_compute; reflexivity).
  destruct (put_badge_updates_present_fields 300 one_badge_db "1" 1 rust_basics
              {[ "badge_name" := JStr "Advanced Rust" ]} H1 H2 H3 eq_refl
              (one_badge_db_accepts _ H4)) as (_ & _ & H).
  apply H.
  - apply lookup_singleton_eq.
  - by apply lookup_singleton_ne.
  - by apply lookup_singleton_ne.
  - by apply lookup_singleton_ne.
Defined.

(** C1, as stated, fails: the body owns [badge_name], with the value
    [null]; the column is [NOT NULL], the statement raises, the handler
    passes the error on, and [badge_name] is not set to the body's
    value: the row is as it was. *)
Lemma put_badge_null_badge_name_rejected :
  hasOwnProperty {[ "badge_name" := JNull ]} "badge_name" = true
  ∧ run (put_badge "1" {[ "badge_name" := JNull ]}) 300 one_badge_db
    = (Next not_null_violation, one_badge_db).
Proof. split; vm_compute; reflexivity. Qed.

(** ** Unknown ids *)

Lemma pg_mapM_ok {A B} (f : A → pg_result B) (l : list A) :
  (∀ x, x ∈ l → ∃ y, f x = PgOk y) → ∃ ys, pg_mapM f l = PgOk ys.
Proof.
  induction l as [|x l' IH]; intros H; [by eexists|].
  destruct (H x) as [y Hy]; [left|].
  destruct IH as [ys Hys]; [intros x' Hx'; apply H; by right|].
  exists (y :: ys). simpl. by rewrite Hy, Hys.
Qed.

Lemma collect_fields_elem (body : jsobject) key v :
  (key, v) ∈ collect_fields body → key ∈ allowed ∧ body !! key = Some v.
Proof.
  rewrite collect_fields_spec. intros H.
  apply list_elem_of_omap in H as (key' & Hin & Hsome).
  destruct (body !! key') as [v'|] eqn:E; [|discriminate].
  simpl in Hsome. injection Hsome as <- <-. done.
Qed.

Lemma filter_not_id_is_all (l : list badge) n :
  (∀ r, r ∈ l → id r ≠ n) → List.filter (λ r, negb (id_is (Some n) r)) l = l.
Proof.
  induction l as [|r l' IH]; intros H; [done|]. simpl.
  rewrite bool_decide_eq_false_2 by (apply H; left). simpl. f_equal.
  apply IH. intros r' Hr'. apply H. by right.
Qed.

Lemma with_rows_same d : with_rows d (rows d) = d.
Proof. by destruct d. Qed.

(** C5 (as amended).  For an id that reads as an integer and is the key of
    no stored row: [GET /badges/:id], [PATCH /badges/:id/verify] (any
    body) and [DELETE /badges/:id] answer 404, and so does
    [PUT /badges/:id] when the body owns at least one allowed key and its
    values under the allowed keys can be read by their columns; each 404
    is the handler's answer to the empty result of its query, no error is
    passed on, and the table is left as it was.  [PUT] with no allowed key
    answers 400 instead, before any call to the pool. *)
Theorem unknown_id_not_found now d path_id n :
  bigint_in (Some path_id) = PgOk (Some n) →
  (∀ r, r ∈ rows d → id r ≠ n) →
  (run (get_badge path_id) now d = (not_found, d)
   ∧ not_found_on_empty_result (get_badge path_id))
  ∧ (∀ body : jsobject,
       (∃ key, key ∈ allowed ∧ is_Some (body !! key)) →
       (∀ key v, key ∈ allowed → body !! key = Some v → readable key v = true) →
       run (put_badge path_id body) now d = (not_found, d)
       ∧ not_found_on_empty_result (put_badge path_id body))
  ∧ (∀ body : jsobject,
       (∀ key, key ∈ allowed → body !! key = None) →
       put_badge path_id body = Respond no_fields_provided
       ∧ storage_calls (put_badge path_id body) = 0%nat
       ∧ run (put_badge path_id body) now d = (no_fields_provided, d))
  ∧ (∀ body : jsobject,
       run (patch_verify path_id body) now d = (not_found, d)
       ∧ not_found_on_empty_result (patch_verify path_id body))
  ∧ (run (delete_badge path_id) now d = (not_found, d)
     ∧ not_found_on_empty_result (delete_badge path_id)).
Proof.
  intros Hid Hnone. split; [|split; [|split; [|split]]].
  - split; [|done]. unfold get_badge, run, pool_query.
    change (prepareValue (JStr path_id)) with (Some path_id).
    by rewrite Hid, filter_id_is_nil.
  - intros body (key & Hkey & v & Hv) Hread.
    assert (Hne : collect_fields body ≠ []).
    { intros Hnil. rewrite collect_fields_nil in Hnil.
      by rewrite (Hnil key Hkey) in Hv. }
    destruct (pg_mapM_ok bind_assignment (collect_fields body)) as [asgs Hasgs].
    { intros [key' v'] Hin. apply collect_fields_elem in Hin as [Hk' Hv'].
      specialize (Hread key' v' Hk' Hv'). unfold readable in Hread.
      destruct (bind_assignment (key', v')); [by eexists|discriminate]. }
    unfold put_badge.
    rewrite bool_decide_eq_false_2 by (by destruct (collect_fields body)).
    split; [|done]. cbn [run].
    rewrite (pool_query_update_set now d _ _ asgs Hasgs). unfold update.
    change (prepareValue (JStr path_id)) with (Some path_id).
    rewrite Hid. cbn [pg_bind].
    rewrite update_rows_no_match by done. by rewrite with_rows_same.
  - intros body Hb. by rewrite (put_badge_nothing_to_update path_id body Hb).
  - intros body. unfold patch_verify.
    destruct (prop body "verified") as [| |b| | |]; cbn [typeof_boolean];
      (split; [|done]); unfold run, pool_query, update;
      change (prepareValue (JStr path_id)) with (Some path_id); rewrite Hid;
      try (replace (boolean_in (prepareValue (JBool b)))
             with (PgOk (A:=option bool) (Some b)) by (by destruct b));
      cbn [pg_bind pg_map];
      rewrite update_rows_no_match by done; by rewrite with_rows_same.
  - split; [|done]. unfold delete_badge, run, pool_query.
    change (prepareValue (JStr path_id)) with (Some path_id).
    rewrite Hid, filter_id_is_nil, filter_not_id_is_all by done.
    by rewrite with_rows_same.
Qed.

Lemma unknown_id_not_found_witness :
  run (get_badge "999") 300 one_badge_db = (not_found, one_badge_db)
  ∧ run (put_badge "999" {[ "badge_name" := JStr "Advanced Rust" ]}) 300 one_badge_db
    = (not_found, one_badge_db)
  ∧ run (patch_verify "999" ∅) 300 one_badge_db = (not_found, one_badge_db)
  ∧ run (delete_badge "999") 300 one_badge_db = (not_found, one_badge_db).
Proof.
  assert (H1 : bigint_in (Some "999") = PgOk (Some 999)) by (vm_compute; reflexivity).
  assert (H2 : ∀ r, r ∈ rows one_badge_db → id r ≠ 999).
  { intros r Hr. apply list_elem_of_singleton in Hr as ->. discriminate. }
  destruct (unknown_id_not_found 300 one_badge_db "999" 999 H1 H2)
    as ([Hget _] & Hput & _ & Hpatch & [Hdel _]).
  split; [exact Hget|]. split; [|split; [exact (proj1 (Hpatch ∅))|exact Hdel]].
  apply Hput.
  - exists "badge_name". split; [left|]. rewrite lookup_singleton_eq. by eexists.
  - intros key v Hkey.
    apply elem_of_cons in Hkey as [->|Hkey].
    { rewrite lookup_singleton_eq. intros [= <-]. vm_compute. reflexivity. }
    repeat (apply elem_of_cons in Hkey as [->|Hkey];
            [by rewrite lookup_singleton_ne|]).
    by apply elem_of_nil in Hkey.
Defined.

(** C5, as stated, fails: [PUT] on an id that matches no row, with the
    empty body, answers 400 "No fields provided to update", not 404. *)
Lemma put_badge_unknown_id_empty_body :
  (∀ r, r ∈ rows one_badge_db → id r ≠ 999)
  ∧ run (put_badge "999" ∅) 300 one_badge_db = (no_fields_provided, one_badge_db)
  ∧ no_fields_provided ≠ not_found.
Proof.
  split; [|split].
  - intros r Hr. apply list_elem_of_singleton in Hr as ->. discriminate.
  - vm_compute. reflexivity.
  - discriminate.
Qed.

(** The other conditions of C5 are needed as well: an id that does not
    read as an integer, or a body value its column cannot read, makes the
    statement raise when it is bound, and the error is passed to [next]. *)
Example get_badge_malformed_id :
  run (get_badge "abc") 300 one_badge_db
  = (Next invalid_text_representation, one_badge_db).
Proof. vm_compute. reflexivity. Qed.

Example put_badge_unknown_id_unreadable_value :
  run (put_badge "999" {[ "student_id" := JStr "abc" ]}) 300 one_badge_db
  = (Next invalid_text_representation, one_badge_db).
Proof. vm_compute. reflexivity. Qed.

(** ** Timestamps *)

Lemma assign_keeps a : keeps_key_and_times (assign a).
Proof.
  intros r r1 H. destruct a as [[?|]|?|[?|]|[?|]]; simpl in H;
    try discriminate; by injection H as <-.
Qed.

Lemma assign_all_keeps l : keeps_key_and_times (assign_all l).
Proof.
  induction l as [|a l' IH]; intros r r1 H; simpl in H.
  - by injection H as <-.
  - destruct (assign a r) as [r'|] eqn:E; [|discriminate]. simpl in H.
    apply assign_keeps in E as (E1 & E2 & E3).
    apply IH in H as (I1 & I2 & I3). repeat split; congruence.
Qed.

Lemma not_verified_keeps : keeps_key_and_times not_verified.
Proof. intros r r1 H. unfold not_verified in H. by apply assign_keeps in H. Qed.

Lemma update_rows_touched now set key (l heap returning : list badge) :
  keeps_key_and_times set →
  update_rows now set key l = PgOk (heap, returning) →
  Forall2 (touched now) l heap
  ∧ ∀ r', r' ∈ returning → r' ∈ heap ∧ updated_at r' = now.
Proof.
  intros Hset. revert heap returning.
  induction l as [|r l' IH]; intros heap returning H; simpl in H.
  { injection H as <- <-. split; [constructor|]. intros r' Hr'.
    by apply elem_of_nil in Hr'. }
  destruct (id_is key r).
  - destruct (set r) as [r1|] eqn:E; [|discriminate]. simpl in H.
    destruct (update_rows now set key l') as [[heap' ret']|]; [|discriminate].
    simpl in H. injection H as <- <-.
    destruct (IH heap' ret' eq_refl) as [IH1 IH2].
    apply Hset in E as (E1 & E2 & E3). split.
    + constructor; [|done]. unfold touched. simpl. auto.
    + intros r' Hr'. apply elem_of_cons in Hr' as [->|Hr'].
      * split; [left|done].
      * destruct (IH2 r' Hr'). split; [by right|done].
  - destruct (update_rows now set key l') as [[heap' ret']|]; [|discriminate].
    simpl in H. injection H as <- <-.
    destruct (IH heap' ret' eq_refl) as [IH1 IH2]. split.
    + constructor; [|done]. unfold touched. auto.
    + intros r' Hr'. destruct (IH2 r' Hr'). split; [by right|done].
Qed.

Lemma touched_refl now (l : list badge) : Forall2 (touched now) l l.
Proof. apply Forall_Forall2_diag, Forall_forall. intros r _. unfold touched. auto. Qed.

Lemma update_touched now set key d res d' :
  (∀ f, set = PgOk f → keeps_key_and_times f) →
  update now set key d = (res, d') →
  skill_badges_id_seq d' = skill_badges_id_seq d
  ∧ Forall2 (touched now) (rows d) (rows d')
  ∧ ∀ returning r', res = PgOk returning → r' ∈ returning →
      r' ∈ rows d' ∧ updated_at r' = now.
Proof.
  intros Hset H. unfold update in H.
  destruct set as [f|e]; cbn [pg_bind] in H.
  2: { injection H as <- <-. split; [done|]. split; [apply touched_refl|done]. }
  destruct key as [k|e]; cbn [pg_bind] in H.
  2: { injection H as <- <-. split; [done|]. split; [apply touched_refl|done]. }
  destruct (update_rows now f k (rows d)) as [[heap ret]|e] eqn:E.
  2: { injection H as <- <-. split; [done|]. split; [apply touched_refl|done]. }
  injection H as <- <-.
  apply update_rows_touched in E as [E1 E2]; [|by apply Hset].
  split; [done|]. split; [done|].
  intros returning r' [= <-] Hr'. by apply E2.
Qed.

Lemma run_shape now req d : table_step now d (run (route req) now d).2.
Proof.
  assert (Hsame : ∀ d, table_step now d d).
  { intros d0. split; [lia|]. left. apply touched_refl. }
  assert (Hupd : ∀ set key k,
    (∀ f, set = PgOk f → keeps_key_and_times f) →
    table_step now d
      (match update now set key d with
       | (PgOk result_rows, d') => (k result_rows, d')
       | (PgErr err, d') => (Next err, d')
       end).2).
  { intros set key k Hset.
    destruct (update now set key d) as [res d1] eqn:E.
    apply update_touched in E as (E1 & E2 & _); [|done].
    destruct res; simpl; (split; [lia|by left]). }
  destruct req as [body|query|path_id|studentId|path_id body|path_id body|path_id];
    cbn [route].
  - unfold post_badges. destruct (_ || _); [apply Hsame|].
    cbn [run pool_query].
    destruct (bigint_in _) as [sid|]; cbn [pg_bind]; [|apply Hsame].
    destruct (text_in _) as [name0|]; cbn [pg_bind]; [|apply Hsame].
    destruct (text_in _) as [desc|]; cbn [pg_bind]; [|apply Hsame].
    destruct (boolean_in _) as [ver|]; cbn [pg_bind]; [|apply Hsame].
    destruct (varchar_typmod _ _) as [name|]; cbn [pg_bind]; [|apply Hsame].
    destruct sid as [sid|], name as [name|], ver as [ver|]; unfold table_step;
      cbn [snd with_rows rows skill_badges_id_seq];
      try (split; [lia|left; apply touched_refl]).
    split; [lia|]. right. left. eexists. split; [done|]. by cbn.
  - unfold get_badges. destruct (truthy _); cbn [run pool_query]; [|apply Hsame].
    destruct (bigint_in _); apply Hsame.
  - unfold get_badge. cbn [run pool_query]. destruct (bigint_in _); apply Hsame.
  - unfold get_student_badges. cbn [run pool_query].
    destruct (bigint_in _); apply Hsame.
  - unfold put_badge. case_bool_decide; [apply Hsame|]. cbn [run].
    destruct (pool_query_update_set_cases now d (collect_fields body) (JStr path_id))
      as [(asgs & -> & _) | [e ->]]; [|apply Hsame].
    apply Hupd. intros f Hf. injection Hf as <-. apply assign_all_keeps.
  - unfold patch_verify. destruct (typeof_boolean _); cbn [run pool_query]; apply Hupd.
    + intros f Hf. destruct (boolean_in _) as [v|]; [|discriminate].
      injection Hf as <-. apply assign_keeps.
    + intros f [= <-]. apply not_verified_keeps.
  - unfold delete_badge. cbn [run pool_query].
    destruct (bigint_in _) as [key|]; [|apply Hsame].
    unfold table_step. cbn [snd with_rows rows skill_badges_id_seq]. split; [lia|].
    right. right. clear. induction (rows d) as [|r l IH]; [done|]. simpl.
    destruct (negb _); by constructor.
Qed.

Lemma touched_ids now (l l' : list badge) :
  Forall2 (touched now) l l' → id <$> l' = id <$> l.
Proof.
  induction 1 as [|r r' l l' (Hr & _) _ IH]; [done|].
  rewrite !fmap_cons. by f_equal.
Qed.

Lemma table_step_inv t now d d' :
  table_inv t d → t ≤ now → table_step now d d' → table_inv now d'.
Proof.
  intros [Hnd Hall] Ht [Hseq [Hsame | [(r & Hrows & Hid & Hc & Hu & Hs) | Hsub]]];
    unfold table_inv.
  - split; [by rewrite (touched_ids now (rows d))|].
    clear Hnd. induction Hsame as [|r r' l l' (Hi & Hc & Hu) _ IH]; [done|].
    apply Forall_cons in Hall as [(H1 & H2 & H3) Hall].
    constructor; [|by apply IH]. rewrite Hi, Hc. destruct Hu as [-> | ->]; lia.
  - rewrite Hrows. split.
    + rewrite fmap_app. apply NoDup_app. split; [done|]. split; [|apply NoDup_singleton].
      intros i Hi Hi'. apply list_elem_of_singleton in Hi' as ->.
      apply list_elem_of_fmap in Hi as (r0 & Hr0 & Hin).
      rewrite Forall_forall in Hall. destruct (Hall r0 Hin). lia.
    + apply Forall_app. split.
      * eapply Forall_impl; [done|]. simpl. intros; lia.
      * apply Forall_singleton. lia.
  - split.
    + apply (sublist_NoDup _ (id <$> rows d)); [done|]. by apply fmap_sublist.
    + apply Forall_forall. intros r Hr. rewrite Forall_forall in Hall.
      destruct (Hall r); [by eapply elem_of_sublist|]. lia.
Qed.

Lemma reachable_inv t d : reachable t d → table_inv t d.
Proof.
  induction 1 as [t|t d now req _ IH Ht].
  - split; [constructor|constructor].
  - eapply table_step_inv; [done..|]. apply run_shape.
Qed.

Lemma reachable_primary_key t d : reachable t d → NoDup (id <$> rows d).
Proof. intros H. by destruct (reachable_inv t d H). Qed.

Lemma table_step_created_at t now d d' r r' :
  table_inv t d → table_step now d d' →
  r ∈ rows d → r' ∈ rows d' → id r' = id r → created_at r' = created_at r.
Proof.
  intros [Hnd Hall] [_ [Hsame | [(r1 & Hrows & Hid & _) | Hsub]]] Hr Hr' Heq.
  - apply list_elem_of_lookup in Hr' as [i Hi].
    destruct (Forall2_lookup_r _ _ _ _ _ Hsame Hi) as (r2 & Hi2 & H1 & H2 & _).
    apply list_elem_of_lookup_2 in Hi2.
    assert (r = r2) as ->
      by (apply (same_id_same_row (rows d)); [done..|congruence]).
    done.
  - rewrite Hrows in Hr'. apply elem_of_app in Hr' as [Hr'|Hr'].
    + assert (r' = r) as -> by (by apply (same_id_same_row (rows d))). done.
    + apply list_elem_of_singleton in Hr' as ->.
      rewrite Forall_forall in Hall. destruct (Hall r Hr). lia.
  - assert (r' = r) as ->; [|done].
    apply (same_id_same_row (rows d)); [done| |done..]. by eapply elem_of_sublist.
Qed.

Lemma table_step_new_row t now d d' r' :
  table_inv t d → table_step now d d' →
  r' ∈ rows d' → (∀ r, r ∈ rows d → id r ≠ id r') →
  created_at r' = now ∧ updated_at r' = now.
Proof.
  intros [Hnd Hall] [_ [Hsame | [(r1 & Hrows & Hid & Hc & Hu & _) | Hsub]]] Hr' Hnew.
  - apply list_elem_of_lookup in Hr' as [i Hi].
    destruct (Forall2_lookup_r _ _ _ _ _ Hsame Hi) as (r2 & Hi2 & H1 & _).
    apply list_elem_of_lookup_2 in Hi2. by destruct (Hnew r2 Hi2).
  - rewrite Hrows in Hr'. apply elem_of_app in Hr' as [Hr'|Hr'].
    + by destruct (Hnew r' Hr').
    + by apply list_elem_of_singleton in Hr' as ->.
  - destruct (Hnew r'); [by eapply elem_of_sublist|done].
Qed.

Lemma found_row (result_rows : list badge) r' :
  (if bool_decide (length result_rows = 0%nat) then not_found
   else Json 200 {| success := true; message := None;
                    data := first_row result_rows |}) = ok_row r' →
  r' ∈ result_rows.
Proof.
  destruct result_rows as [|r l]; [discriminate|]. simpl.
  intros [= <-]. left.
Qed.

(** The row an [UPDATE] of the router answers with is stored, and its
    [updated_at] is the server time of the statement. *)
Lemma updated_row_stamped now set key d r' :
  (∀ f, set = PgOk f → keeps_key_and_times f) →
  let out := match update now set key d with
             | (PgOk result_rows, d') =>
                 (if bool_decide (length result_rows = 0%nat) then not_found
                  else Json 200 {| success := true; message := None;
                                   data := first_row result_rows |}, d')
             | (PgErr err, d') => (Next err, d')
             end in
  out.1 = ok_row r' → r' ∈ rows out.2 ∧ updated_at r' = now.
Proof.
  intros Hset out. subst out.
  destruct (update now set key d) as [res d1] eqn:E.
  apply update_touched in E as (_ & _ & E); [|done].
  destruct res as [returning|]; [|discriminate]. cbn [fst snd].
  intros H. apply found_row in H. by apply (E returning).
Qed.

Lemma collect_fields_other_key (body : jsobject) key v :
  key ∉ allowed → collect_fields (<[key := v]> body) = collect_fields body.
Proof.
  intros Hkey. rewrite !collect_fields_spec. unfold allowed in *. cbn [omap list_omap].
  rewrite !lookup_insert_ne;
    [done|intros ->; apply Hkey; repeat first [by left | right]..].
Qed.

(** C4.  In every table the router can have produced from the empty table
    while the server's clock did not run backwards, and for every further
    request served at a time [now] not before the clock: a stored row
    keeps its [created_at] through the request, whichever it is; a row
    that is new was stamped with [now] in both timestamps; a delete
    answers with a row as it was stored; a successful partial update or
    verify answers with the stored row, whose
    [updated_at] is [now], the time of the server, and no property of the
    body outside the allowed keys (such as [updated_at]) has any effect on
    the statement sent; and afterwards every row has
    [created_at ≤ updated_at]. *)
Theorem timestamps_are_server_side t d now req :
  reachable t d → t ≤ now →
  let d' := (run (route req) now d).2 in
  (∀ r r', r ∈ rows d → r' ∈ rows d' → id r' = id r → created_at r' = created_at r)
  ∧ (∀ r', r' ∈ rows d' → (∀ r, r ∈ rows d → id r ≠ id r') →
       created_at r' = now ∧ updated_at r' = now)
  ∧ (∀ path_id r',
       req = DELETE_badge path_id →
       (run (route req) now d).1 = deleted r' → r' ∈ rows d)
  ∧ (∀ path_id body r',
       req = PUT_badge path_id body ∨ req = PATCH_verify path_id body →
       (run (route req) now d).1 = ok_row r' →
       r' ∈ rows d' ∧ updated_at r' = now)
  ∧ (∀ path_id (body : jsobject) key v,
       key ∉ allowed → put_badge path_id (<[key := v]> body) = put_badge path_id body)
  ∧ (∀ path_id (body : jsobject) key v,
       key ≠ "verified" →
       patch_verify path_id (<[key := v]> body) = patch_verify path_id body)
  ∧ (∀ r', r' ∈ rows d' → created_at r' ≤ updated_at r')
  ∧ reachable now d'.
Proof.
  intros Hreach Ht d'.
  pose proof (reachable_inv t d Hreach) as Hinv.
  pose proof (run_shape now req d) as Hstep. fold d' in Hstep.
  split; [|split; [|split; [|split; [|split; [|split; [|split]]]]]].
  - intros r r'. by apply (table_step_created_at t now d d').
  - intros r'. by apply (table_step_new_row t now d d').
  - intros path_id r' ->. cbn [route]. unfold delete_badge. cbn [run pool_query].
    destruct (bigint_in _) as [key|]; [|discriminate]. cbn [fst].
    destruct (List.filter (id_is key) (rows d)) as [|r l] eqn:E; [discriminate|].
    simpl. intros [= <-].
    assert (Hin : In r (List.filter (id_is key) (rows d))) by (rewrite E; by left).
    apply filter_In in Hin as [Hin _]. by apply list_elem_of_In.
  - intros path_id body r' [-> | ->]; subst d'; cbn [route].
    + unfold put_badge. case_bool_decide; [discriminate|]. cbn [run].
      destruct (pool_query_update_set_cases now d (collect_fields body) (JStr path_id))
        as [(asgs & -> & _) | [e ->]]; [|discriminate].
      apply updated_row_stamped. intros f Hf. injection Hf as <-.
      apply assign_all_keeps.
    + unfold patch_verify. destruct (typeof_boolean _); cbn [run pool_query];
        apply updated_row_stamped.
      * intros f Hf. destruct (boolean_in _) as [v|]; [|discriminate].
        injection Hf as <-. apply assign_keeps.
      * intros f [= <-]. apply not_verified_keeps.
  - intros path_id body key v Hkey. unfold put_badge.
    by rewrite collect_fields_other_key.
  - intros path_id body key v Hkey. unfold patch_verify, prop.
    by rewrite lookup_insert_ne.
  - intros r' Hr'. destruct (table_step_inv t now d d' Hinv Ht Hstep) as [_ Hall].
    rewrite Forall_forall in Hall. destruct (Hall r' Hr'). lia.
  - by apply reachable_step with (t := t).
Qed.

Lemma timestamps_are_server_side_witness :
  Forall (λ r', created_at r' ≤ updated_at r')
    (rows (run (route (PATCH_verify "1" ∅)) 300 one_badge_db).2)
  ∧ reachable 300 (run (route (PATCH_verify "1" ∅)) 300 one_badge_db).2.
Proof.
  pose proof (timestamps_are_server_side 100 one_badge_db 300 (PATCH_verify "1" ∅)
                one_badge_db_reachable ltac:(lia)) as H.
  destruct H as (_ & _ & _ & _ & _ & _ & Hle & Hreach).
  split; [|exact Hreach]. apply Forall_forall. exact Hle.
Defined.

(** * Further properties of the router *)

(** ** The list of one student *)

(** X1.  [GET /students/:studentId/badges] with a [studentId] that reads as the
    integer [n]: 200 with exactly the rows of that student, newest first;
    the empty array when there are none; the table is not changed. *)
Theorem student_badges_newest_first now d studentId n :
  bigint_in (Some studentId) = PgOk (Some n) →
  ∃ l, run (get_student_badges studentId) now d = (ok_rows l, d)
       ∧ l ≡ₚ filter (λ r, student_id r = n) (rows d)
       ∧ Sorted newer_first l
       ∧ ((∀ r, r ∈ rows d → student_id r ≠ n) → l = []).
Proof.
  intros Hn.
  exists (order_by_created_at_desc (filter (λ r, student_id r = n) (rows d))).
  split; [|split; [|split]].
  - unfold get_student_badges, run, pool_query.
    change (prepareValue (JStr studentId)) with (Some studentId).
    by rewrite Hn, filter_student_id_is.
  - apply order_by_created_at_desc_perm.
  - apply order_by_created_at_desc_sorted.
  - intros Hnone.
    destruct (filter (λ r, student_id r = n) (rows d)) as [|r l'] eqn:E; [done|].
    assert (Hr : r ∈ filter (λ r, student_id r = n) (rows d)) by (rewrite E; left).
    apply list_elem_of_filter in Hr as [Hr1 Hr2]. by destruct (Hnone r Hr2).
Qed.

Lemma student_badges_newest_first_witness :
  ∃ l, run (get_student_badges "1") 300 one_badge_db = (ok_rows l, one_badge_db)
       ∧ l ≡ₚ filter (λ r, student_id r = 1) (rows one_badge_db)
       ∧ Sorted newer_first l
       ∧ ((∀ r, r ∈ rows one_badge_db → student_id r ≠ 1) → l = []).
Proof. apply (student_badges_newest_first 300 one_badge_db "1" 1 path_1). Defined.

(** X2.  The two ways to list a student's badges are one: for a non-empty
    [student_id] in the query string, [GET /badges] is the same handler as
    [GET /students/:studentId/badges] on that string, so both give the
    same answer on every table, the error of an unreadable id included. *)
Theorem get_badges_agrees_with_student_route (query : jsobject) s :
  query !! "student_id" = Some (JStr s) → s ≠ "" →
  get_badges query = get_student_badges s
  ∧ ∀ now d, run (get_badges query) now d = run (get_student_badges s) now d.
Proof.
  intros Hq Hs.
  assert (H : get_badges query = get_student_badges s).
  { unfold get_badges, get_student_badges, prop. rewrite Hq. cbn [default truthy].
    destruct s; [done|reflexivity]. }
  split; [done|]. intros now d. by rewrite H.
Qed.

Lemma get_badges_agrees_with_student_route_witness :
  run (get_badges {[ "student_id" := JStr "abc" ]}) 300 one_badge_db
  = run (get_student_badges "abc") 300 one_badge_db.
Proof.
  apply (get_badges_agrees_with_student_route {[ "student_id" := JStr "abc" ]} "abc").
  - apply lookup_singleton_eq.
  - discriminate.
Defined.

(** ** Fetching and deleting a stored badge *)

(** X3.  [GET /badges/:id] on the id of a stored row answers 200 with that row
    and leaves the table as it was. *)
Theorem get_badge_found now d path_id n r0 :
  bigint_in (Some path_id) = PgOk (Some n) →
  NoDup (id <$> rows d) → r0 ∈ rows d → id r0 = n →
  run (get_badge path_id) now d = (ok_row r0, d).
Proof.
  intros Hid Hnd Hin Hn. unfold get_badge, run, pool_query.
  change (prepareValue (JStr path_id)) with (Some path_id).
  by rewrite Hid, (filter_id_is_unique (rows d) n r0).
Qed.

Lemma get_badge_found_witness :
  run (get_badge "1") 300 one_badge_db = (ok_row rust_basics, one_badge_db).
Proof.
  apply (get_badge_found 300 one_badge_db "1" 1 rust_basics path_1
           one_badge_db_key one_badge_db_row eq_refl).
Defined.

Lemma filter_not_id_is (l : list badge) n :
  List.filter (λ r, negb (id_is (Some n) r)) l = filter (λ r, id r ≠ n) l.
Proof.
  induction l as [|r l' IH]; [done|]. cbn [List.filter]. rewrite filter_cons, IH.
  cbn [id_is]. case_bool_decide; by destruct (decide _).
Qed.

Lemma delete_badge_run now d path_id n r0 :
  bigint_in (Some path_id) = PgOk (Some n) →
  NoDup (id <$> rows d) → r0 ∈ rows d → id r0 = n →
  run (delete_badge path_id) now d
  = (deleted r0, with_rows d (filter (λ r, id r ≠ n) (rows d))).
Proof.
  intros Hid Hnd Hin Hn. unfold delete_badge, run, pool_query.
  change (prepareValue (JStr path_id)) with (Some path_id).
  by rewrite Hid, (filter_id_is_unique (rows d) n r0), filter_not_id_is.
Qed.

(** X4.  [DELETE /badges/:id] on the id of a stored row answers 200 "Badge
    deleted" with the row as it was stored; afterwards the table holds
    every other row, in the same order, and no row under that id; the
    sequence behind [id] is not moved. *)
Theorem delete_badge_removes_one_row now d path_id n r0 :
  bigint_in (Some path_id) = PgOk (Some n) →
  NoDup (id <$> rows d) → r0 ∈ rows d → id r0 = n →
  let d' := (run (delete_badge path_id) now d).2 in
  (run (delete_badge path_id) now d).1 = deleted r0
  ∧ rows d' = filter (λ r, id r ≠ n) (rows d)
  ∧ (∀ r, r ∈ rows d' ↔ r ∈ rows d ∧ r ≠ r0)
  ∧ skill_badges_id_seq d' = skill_badges_id_seq d.
Proof.
  intros Hid Hnd Hin Hn d'. subst d'.
  rewrite (delete_badge_run now d path_id n r0) by done.
  split; [done|]. split; [done|]. split; [|done].
  intros r. cbn [snd with_rows rows]. rewrite list_elem_of_filter. split.
  - intros [Hne Hr]. split; [done|]. intros ->. done.
  - intros [Hr Hne]. split; [|done]. intros Heq. apply Hne.
    apply (same_id_same_row (rows d)); [done..|congruence].
Qed.

Lemma delete_badge_removes_one_row_witness :
  (run (delete_badge "1") 300 one_badge_db).1 = deleted rust_basics
  ∧ rows (run (delete_badge "1") 300 one_badge_db).2
    = filter (λ r, id r ≠ 1) (rows one_badge_db).
Proof.
  destruct (delete_badge_removes_one_row 300 one_badge_db "1" 1 rust_basics path_1
              one_badge_db_key one_badge_db_row eq_refl) as (H1 & H2 & _).
  split; [exact H1|exact H2].
Defined.

(** ** Ids are not reused *)

Lemma get_badge_absent now d path_id n :
  bigint_in (Some path_id) = PgOk (Some n) →
  (∀ r, r ∈ rows d → id r ≠ n) →
  run (get_badge path_id) now d = (not_found, d).
Proof.
  intros Hid Hnone. unfold get_badge, run, pool_query.
  change (prepareValue (JStr path_id)) with (Some path_id).
  by rewrite Hid, filter_id_is_nil.
Qed.

Lemma table_step_absent now d d' n :
  table_step now d d' →
  n < skill_badges_id_seq d → (∀ r, r ∈ rows d → id r ≠ n) →
  n < skill_badges_id_seq d' ∧ ∀ r, r ∈ rows d' → id r ≠ n.
Proof.
  intros [Hseq [Hsame | [(r1 & Hrows & Hid & _) | Hsub]]] Hn Habs;
    (split; [lia|]); intros r Hr.
  - apply touched_ids in Hsame. intros Heq. 
    assert (Hin : id r ∈ id <$> rows d) by (rewrite <- Hsame; by apply list_elem_of_fmap_2).
    apply list_elem_of_fmap in Hin as (r2 & Hr2 & Hin). apply (Habs r2 Hin). congruence.
  - rewrite Hrows in Hr. apply elem_of_app in Hr as [Hr|Hr]; [by apply Habs|].
    apply list_elem_of_singleton in Hr as ->. lia.
  - apply Habs. by eapply elem_of_sublist.
Qed.

Lemma serve_absent h d n :
  n < skill_badges_id_seq d → (∀ r, r ∈ rows d → id r ≠ n) →
  n < skill_badges_id_seq (serve d h) ∧ ∀ r, r ∈ rows (serve d h) → id r ≠ n.
Proof.
  revert d. induction h as [|[now req] h IH]; intros d Hn Habs; [done|].
  unfold serve. cbn [foldl fst snd]. fold (serve (run (route req) now d).2 h).
  destruct (table_step_absent now d (run (route req) now d).2 n
              (run_shape now req d) Hn Habs) as [Hn' Habs'].
  by apply IH.
Qed.

(** X5.  A deleted badge stays deleted.  In a table the router has produced,
    after [DELETE /badges/:id] on the id of a stored row, and after any
    further history of requests whatever (creations included, since the
    sequence never hands the id out again), no row has that id and
    [GET /badges/:id] answers 404. *)
Theorem deleted_badge_stays_deleted t d now path_id n r0 h now' :
  reachable t d →
  bigint_in (Some path_id) = PgOk (Some n) → r0 ∈ rows d → id r0 = n →
  let d' := serve (run (delete_badge path_id) now d).2 h in
  (∀ r, r ∈ rows d' → id r ≠ n)
  ∧ run (get_badge path_id) now' d' = (not_found, d').
Proof.
  intros Hreach Hid Hin Hn d'.
  destruct (reachable_inv t d Hreach) as [Hnd Hall].
  assert (Habs : ∀ r, r ∈ rows d' → id r ≠ n).
  { subst d'. rewrite (delete_badge_run now d path_id n r0) by done. cbn [snd].
    refine (proj2 (serve_absent h _ n _ _)); cbn [with_rows rows skill_badges_id_seq].
    - rewrite Forall_forall in Hall. destruct (Hall r0 Hin). lia.
    - intros r Hr. by apply list_elem_of_filter in Hr as [Hr _]. }
  split; [done|]. by apply (get_badge_absent now' d' path_id n).
Qed.

Lemma deleted_badge_stays_deleted_witness :
  run (get_badge "1") 500
    (serve (run (delete_badge "1") 300 one_badge_db).2
       [(400, POST_badges {[ "student_id" := JNum "1";
                             "badge_name" := JStr "Rust Basics" ]})])
  = (not_found,
     serve (run (delete_badge "1") 300 one_badge_db).2
       [(400, POST_badges {[ "student_id" := JNum "1";
                             "badge_name" := JStr "Rust Basics" ]})]).
Proof.
  apply (deleted_badge_stays_deleted 100 one_badge_db 300 "1" 1 rust_basics
           [(400, POST_badges {[ "student_id" := JNum "1";
                                 "badge_name" := JStr "Rust Basics" ]})] 500
           one_badge_db_reachable path_1 one_badge_db_row eq_refl).
Defined.

(** ** What [POST /badges] does, for every body *)

Lemma truthy_prepared v : truthy v = true → ∃ text, prepareValue v = Some text.
Proof. destruct v as [| |[]| | |]; try discriminate; by eexists. Qed.

Lemma bigint_in_not_null text : bigint_in (Some text) ≠ PgOk None.
Proof.
  unfold bigint_in, pg_client_to_server. destruct (valid_utf8 text); [|discriminate].
  cbn [pg_bind]. destruct (signed_decimal _); [|discriminate].
  case_bool_decide; discriminate.
Qed.

Lemma varchar_typmod_not_null n text : varchar_typmod n (Some text) ≠ PgOk None.
Proof.
  unfold varchar_typmod. case_bool_decide; [discriminate|].
  destruct (all_blank _); discriminate.
Qed.

Lemma post_badges_run now d (body : jsobject) sid name desc :
  truthy (prop body "student_id") = true →
  bigint_in (prepareValue (prop body "student_id")) = PgOk (Some sid) →
  truthy (prop body "badge_name") = true →
  varchar_in 255 (prepareValue (prop body "badge_name")) = PgOk (Some name) →
  text_in (prepareValue (js_or (prop body "badge_description") JNull)) = PgOk desc →
  run (post_badges body) now d
  = (created (created_row now d sid name body),
     {| rows := rows d ++ [created_row now d sid name body];
        skill_badges_id_seq := skill_badges_id_seq d + 1 |}).
Proof.
  intros Hs Hsid Hn Hname Hdesc. unfold post_badges. rewrite Hs, Hn.
  cbn [negb orb run].
  rewrite (pool_query_insert now d _ _ _ _ sid name desc _ Hsid Hname Hdesc
             (boolean_in_bool _)).
  by rewrite (text_in_ok _ _ Hdesc).
Qed.

(** The three ways [POST /badges] can end. *)
Lemma post_badges_cases now d (body : jsobject) :
  (∃ sid name,
     bigint_in (prepareValue (prop body "student_id")) = PgOk (Some sid)
     ∧ varchar_in 255 (prepareValue (prop body "badge_name")) = PgOk (Some name)
     ∧ run (post_badges body) now d
       = (created (created_row now d sid name body),
          {| rows := rows d ++ [created_row now d sid name body];
             skill_badges_id_seq := skill_badges_id_seq d + 1 |}))
  ∨ run (post_badges body) now d = (required_fields_missing, d)
  ∨ ∃ e, run (post_badges body) now d = (Next e, d).
Proof.
  destruct (truthy (prop body "student_id")) eqn:Hs.
  2: { right. left. unfold post_badges. by rewrite Hs. }
  destruct (truthy (prop body "badge_name")) eqn:Hn.
  2: { right. left. unfold post_badges. by rewrite Hs, Hn. }
  destruct (truthy_prepared _ Hs) as [ts Hts].
  destruct (truthy_prepared _ Hn) as [tn Htn].
  assert (Herr : ∀ e, pool_query now
                        (InsertBadge (prop body "student_id") (prop body "badge_name")
                           (js_or (prop body "badge_description") JNull)
                           (JBool (truthy (prop body "verified")))) d = (PgErr e, d) →
                      ∃ e, run (post_badges body) now d = (Next e, d)).
  { intros e He. exists e. unfold post_badges. rewrite Hs, Hn.
    cbn [negb orb run]. by rewrite He. }
  destruct (bigint_in (prepareValue (prop body "student_id"))) as [[sid|]|e] eqn:Hsid.
  3: { right. right. apply (Herr e). cbn [pool_query]. by rewrite Hsid. }
  2: { rewrite Hts in Hsid. by destruct (bigint_in_not_null ts). }
  destruct (text_in (prepareValue (prop body "badge_name"))) as [name0|e] eqn:Hname0.
  2: { right. right. apply (Herr e). cbn [pool_query]. by rewrite Hsid, Hname0. }
  destruct (text_in (prepareValue (js_or (prop body "badge_description") JNull)))
    as [desc|e] eqn:Hdesc.
  2: { right. right. apply (Herr e). cbn [pool_query]. by rewrite Hsid, Hname0, Hdesc. }
  destruct (varchar_typmod 255 name0) as [[name|]|e] eqn:Hname.
  3: { right. right. apply (Herr e). cbn [pool_query].
       rewrite Hsid, Hname0, Hdesc, boolean_in_bool. cbn [pg_bind]. by rewrite Hname. }
  2: { rewrite (text_in_ok _ _ Hname0), Htn in Hname.
       by destruct (varchar_typmod_not_null 255 tn). }
  assert (Hvar : varchar_in 255 (prepareValue (prop body "badge_name"))
                 = PgOk (Some name)).
  { unfold varchar_in. by rewrite Hname0. }
  left. exists sid, name. split; [done|]. split; [done|].
  by apply (post_badges_run now d body sid name desc).
Qed.

(** X6.  [POST /badges] is all or nothing, for every body: either the answer is
    201 with a row that was appended to the table under the next value of
    the sequence, stamped with the server time in both timestamps and with
    [verified] the truthiness of the body's [verified]; or the table and
    the sequence are exactly as before and the answer is the 400 of the
    presence check or an error passed to [next]. *)
Theorem post_badges_all_or_nothing now d (body : jsobject) :
  let out := run (post_badges body) now d in
  (∃ r, out.1 = created r
        ∧ rows out.2 = rows d ++ [r]
        ∧ skill_badges_id_seq out.2 = skill_badges_id_seq d + 1
        ∧ id r = skill_badges_id_seq d
        ∧ created_at r = now ∧ updated_at r = now
        ∧ verified r = truthy (prop body "verified"))
  ∨ (out.2 = d ∧ (out.1 = required_fields_missing ∨ ∃ e, out.1 = Next e)).
Proof.
  intros out. subst out.
  destruct (post_badges_cases now d body) as [(sid & name & _ & _ & H) | [H | [e H]]];
    rewrite H; cbn [fst snd].
  - left. eexists. by repeat split.
  - right. split; [done|]. by left.
  - right. split; [done|]. right. by exists e.
Qed.

(** X7.  The optional fields of [POST /badges] are coerced by value, not
    by presence.  For a body with an accepted [student_id] and
    [badge_name] and a description the column can hold: the stored
    [verified] is the truthiness of the body's value, so any non-empty
    string, the string "false" among them, is stored as [true]; a falsy
    [badge_description] (absent, [null], the empty string, [0], [false])
    is stored as [NULL], and a non-empty string as itself. *)
Theorem post_badges_coerces_optional_fields now d (body : jsobject) sid name desc :
  truthy (prop body "student_id") = true →
  bigint_in (prepareValue (prop body "student_id")) = PgOk (Some sid) →
  truthy (prop body "badge_name") = true →
  varchar_in 255 (prepareValue (prop body "badge_name")) = PgOk (Some name) →
  text_in (prepareValue (js_or (prop body "badge_description") JNull)) = PgOk desc →
  ∃ r, run (post_badges body) now d
       = (created r, {| rows := rows d ++ [r];
                        skill_badges_id_seq := skill_badges_id_seq d + 1 |})
       ∧ student_id r = sid ∧ badge_name r = name ∧ badge_description r = desc
       ∧ verified r = truthy (prop body "verified")
       ∧ (∀ s, body !! "verified" = Some (JStr s) → s ≠ "" → verified r = true)
       ∧ (truthy (prop body "badge_description") = false → badge_description r = None)
       ∧ (∀ s, body !! "badge_description" = Some (JStr s) → s ≠ "" →
               badge_description r = Some s).
Proof.
  intros Hs Hsid Hn Hname Hdesc. exists (created_row now d sid name body).
  split; [by apply (post_badges_run now d body sid name desc)|].
  unfold created_row. cbn [student_id badge_name verified badge_description].
  split; [done|]. split; [done|]. split; [symmetry; by apply text_in_ok|].
  split; [done|]. split; [|split].
  - intros s Hv Hne. unfold prop. rewrite Hv. cbn [default truthy].
    by destruct s.
  - intros Hd. unfold js_or. by rewrite Hd.
  - intros s Hd Hne. unfold js_or, prop. rewrite Hd. cbn [default truthy].
    by destruct s.
Qed.

Lemma post_badges_coerces_optional_fields_witness :
  ∃ r, run (post_badges {[ "student_id" := JStr "7"; "badge_name" := JStr "Go";
                           "verified" := JStr "false";
                           "badge_description" := JStr "" ]}) 100 empty_db
       = (created r, {| rows := rows empty_db ++ [r];
                        skill_badges_id_seq := skill_badges_id_seq empty_db + 1 |})
       ∧ verified r = true ∧ badge_description r = None.
Proof.
  set (body := ({[ "student_id" := JStr "7"; "badge_name" := JStr "Go";
                   "verified" := JStr "false";
                   "badge_description" := JStr "" ]} : jsobject)).
  assert (H1 : truthy (prop body "student_id") = true) by (vm_compute; reflexivity).
  assert (H2 : bigint_in (prepareValue (prop body "student_id")) = PgOk (Some 7))
    by (vm_compute; reflexivity).
  assert (H3 : truthy (prop body "badge_name") = true) by (vm_compute; reflexivity).
  assert (H4 : varchar_in 255 (prepareValue (prop body "badge_name")) = PgOk (Some "Go"))
    by (vm_compute; reflexivity).
  assert (H5 : text_in (prepareValue (js_or (prop body "badge_description") JNull))
               = PgOk None) by (vm_compute; reflexivity).
  destruct (post_badges_coerces_optional_fields 100 empty_db body 7 "Go" None
              H1 H2 H3 H4 H5)
    as (r & Hrun & _ & _ & _ & _ & Hv & Hd & _).
  exists r. split; [exact Hrun|]. split.
  - apply (Hv "false"); [vm_compute; reflexivity|discriminate].
  - apply Hd. vm_compute. reflexivity.
Defined.

Lemma created_row_appended t d now (body : jsobject) r :
  reachable t d →
  (run (post_badges body) now d).1 = created r →
  id r = skill_badges_id_seq d
  ∧ rows (run (post_badges body) now d).2 = rows d ++ [r]
  ∧ NoDup (id <$> rows (run (post_badges body) now d).2).
Proof.
  intros Hreach Hr.
  destruct (reachable_inv t d Hreach) as [Hnd Hall]. rewrite Forall_forall in Hall.
  destruct (post_badges_cases now d body) as [(sid & name & _ & _ & H) | [H | [e H]]];
    rewrite H in Hr |- *; cbn [fst snd] in *; try discriminate.
  injection Hr as <-. cbn [rows id created_row].
  split; [done|]. split; [done|].
  rewrite fmap_app. apply NoDup_app. split; [done|]. split; [|apply NoDup_singleton].
  intros i Hi Hi'. apply list_elem_of_singleton in Hi'. cbn in Hi'. subst i.
  apply list_elem_of_fmap in Hi as (r0 & Hr0 & Hin). destruct (Hall r0 Hin). lia.
Qed.

(** X8.  In a table the router has produced, the row a successful
    [POST /badges] answers with has an [id] above every stored id, it is
    appended to the table, and [id] is still a key afterwards. *)
Theorem post_badges_assigns_fresh_id t d now (body : jsobject) r :
  reachable t d →
  (run (post_badges body) now d).1 = created r →
  let d' := (run (post_badges body) now d).2 in
  (∀ r0, r0 ∈ rows d → id r0 < id r)
  ∧ rows d' = rows d ++ [r]
  ∧ NoDup (id <$> rows d').
Proof.
  intros Hreach Hr d'. subst d'.
  destruct (created_row_appended t d now body r Hreach Hr) as (Hid & Hrows & Hnd').
  split; [|done]. intros r0 Hr0.
  destruct (reachable_inv t d Hreach) as [_ Hall]. rewrite Forall_forall in Hall.
  destruct (Hall r0 Hr0). lia.
Qed.

Lemma post_badges_assigns_fresh_id_witness :
  rows (run (post_badges {[ "student_id" := JNum "2"; "badge_name" := JStr "Go" ]})
          300 one_badge_db).2
  = rows one_badge_db
    ++ [{| id := 2; student_id := 2; badge_name := "Go"; badge_description := None;
           verified := false; created_at := 300; updated_at := 300 |}].
Proof.
  assert (H : (run (post_badges {[ "student_id" := JNum "2";
                                   "badge_name" := JStr "Go" ]}) 300 one_badge_db).1
              = created {| id := 2; student_id := 2; badge_name := "Go";
                           badge_description := None; verified := false;
                           created_at := 300; updated_at := 300 |})
    by (vm_compute; reflexivity).
  exact (proj1 (proj2 (post_badges_assigns_fresh_id 100 one_badge_db 300 _ _
                         one_badge_db_reachable H))).
Defined.

(** X9.  Create, then read.  In a table the router has produced, after a
    successful [POST /badges] the row of the answer is what
    [GET /badges/:id] returns for its id, and [GET /badges] lists it
    together with the rows that were there before, newest first. *)
Theorem created_badge_can_be_read t d now (body : jsobject) r path_id now' :
  reachable t d →
  (run (post_badges body) now d).1 = created r →
  bigint_in (Some path_id) = PgOk (Some (id r)) →
  let d' := (run (post_badges body) now d).2 in
  run (get_badge path_id) now' d' = (ok_row r, d')
  ∧ ∃ l, run (get_badges ∅) now' d' = (ok_rows l, d')
         ∧ l ≡ₚ r :: rows d ∧ Sorted newer_first l.
Proof.
  intros Hreach Hr Hid d'.
  destruct (created_row_appended t d now body r Hreach Hr) as (_ & Hrows & Hnd').
  fold d' in Hrows, Hnd'. clearbody d'.
  split.
  - unfold get_badge, run, pool_query.
    change (prepareValue (JStr path_id)) with (Some path_id). rewrite Hid.
    rewrite (filter_id_is_unique _ (id r) r); [done|done| |done].
    rewrite Hrows. apply elem_of_app. right. by apply list_elem_of_singleton.
  - eexists. split; [reflexivity|]. split.
    + rewrite order_by_created_at_desc_perm, Hrows.
      symmetry. apply Permutation_cons_append.
    + apply order_by_created_at_desc_sorted.
Qed.

Lemma created_badge_can_be_read_witness :
  run (get_badge "1") 300
    (run (post_badges {[ "student_id" := JNum "1"; "badge_name" := JStr "Rust Basics" ]})
       100 empty_db).2
  = (ok_row rust_basics,
     (run (post_badges {[ "student_id" := JNum "1"; "badge_name" := JStr "Rust Basics" ]})
        100 empty_db).2).
Proof.
  assert (H : (run (post_badges {[ "student_id" := JNum "1";
                                   "badge_name" := JStr "Rust Basics" ]})
                 100 empty_db).1 = created rust_basics)
    by (vm_compute; reflexivity).
  exact (proj1 (created_badge_can_be_read 0 empty_db 100 _ rust_basics "1" 300
                  (reachable_empty 0) H path_1)).
Defined.

Lemma update_rows_returning now set key (l heap returning : list badge) :
  keeps_key_and_times set →
  update_rows now set key l = PgOk (heap, returning) →
  (∀ r', r' ∈ returning → id_is key r' = true)
  ∧ (returning = [] → heap = l).
Proof.
  intros Hset. revert heap returning.
  induction l as [|r l' IH]; intros heap returning H; simpl in H.
  { injection H as <- <-. split; [|done]. intros r' Hr'. by apply elem_of_nil in Hr'. }
  destruct (id_is key r) eqn:Hkey.
  - destruct (set r) as [r1|] eqn:E; [|discriminate]. simpl in H.
    destruct (update_rows now set key l') as [[heap' ret']|]; [|discriminate].
    simpl in H. injection H as <- <-.
    destruct (IH heap' ret' eq_refl) as [IH1 _].
    apply Hset in E as (E1 & _). split; [|discriminate].
    intros r' Hr'. apply elem_of_cons in Hr' as [->|Hr']; [|by apply IH1].
    destruct key as [k|]; [|discriminate]. simpl in *.
    apply bool_decide_eq_true_1 in Hkey. apply bool_decide_eq_true_2. congruence.
  - destruct (update_rows now set key l') as [[heap' ret']|]; [|discriminate].
    simpl in H. injection H as <- <-.
    destruct (IH heap' ret' eq_refl) as [IH1 IH2]. split; [done|].
    intros ->. by rewrite IH2.
Qed.

(** The [SET] list of a verify keeps [id] and both timestamps. *)
Lemma patch_verify_set_keeps text f :
  pg_map (λ v, assign (SetVerified v)) (boolean_in text) = PgOk f →
  keeps_key_and_times f.
Proof.
  intros Hf. destruct (boolean_in _) as [v|]; [|discriminate].
  injection Hf as <-. apply assign_keeps.
Qed.

Lemma update_found now set key d k r' d' :
  (∀ f, set = PgOk f → keeps_key_and_times f) →
  NoDup (id <$> rows d) →
  (match update now set key d with
   | (PgOk result_rows, d1) =>
       (if bool_decide (length result_rows = 0%nat) then not_found
        else Json 200 {| success := true; message := None;
                         data := first_row result_rows |}, d1)
   | (PgErr err, d1) => (Next err, d1)
   end) = (ok_row r', d') →
  key = PgOk k → List.filter (id_is k) (rows d') = [r'].
Proof.
  intros Hset Hnd H ->. unfold update in H.
  destruct set as [f|e]; cbn [pg_bind] in H; [|discriminate].
  destruct (update_rows now f k (rows d)) as [[heap ret]|e] eqn:E; [|discriminate].
  injection H as H <-. apply found_row in H.
  specialize (Hset f eq_refl).
  destruct (update_rows_touched now f k _ _ _ Hset E) as [Hsame Hret].
  destruct (update_rows_returning now f k _ _ _ Hset E) as [Hids _].
  specialize (Hids r' H). destruct (Hret r' H) as [Hin _].
  destruct k as [n|]; [|discriminate]. simpl in Hids.
  apply bool_decide_eq_true_1 in Hids. cbn [with_rows rows].
  apply filter_id_is_unique; [|done..].
  by rewrite (touched_ids now (rows d)).
Qed.

(** X10.  Update, then read.  When [id] is a key of the table, the row a
    successful [PUT /badges/:id] or [PATCH /badges/:id/verify] answers
    with is what [GET /badges/:id] on the same path returns
    afterwards. *)
Theorem updated_badge_can_be_read now d req path_id (body : jsobject) r' now' :
  NoDup (id <$> rows d) →
  req = PUT_badge path_id body ∨ req = PATCH_verify path_id body →
  (run (route req) now d).1 = ok_row r' →
  let d' := (run (route req) now d).2 in
  run (get_badge path_id) now' d' = (ok_row r', d').
Proof.
  intros Hnd Hreq Hr d'.
  assert (Hsel : ∃ k, bigint_in (Some path_id) = PgOk k
                      ∧ List.filter (id_is k) (rows d') = [r']).
  { subst d'. destruct (bigint_in (Some path_id)) as [k|e] eqn:Hk.
    2: { exfalso. destruct Hreq as [-> | ->]; cbn [route] in Hr.
         - unfold put_badge in Hr. case_bool_decide; [discriminate|].
           cbn [run] in Hr.
           destruct (pool_query_update_set_cases now d (collect_fields body)
                       (JStr path_id)) as [(asgs & Hq & _) | [e' Hq]];
             rewrite Hq in Hr; [|discriminate].
           unfold update in Hr.
           change (prepareValue (JStr path_id)) with (Some path_id) in Hr.
           by rewrite Hk in Hr.
         - unfold patch_verify in Hr.
           destruct (typeof_boolean _); cbn [run pool_query] in Hr;
             unfold update in Hr;
             change (prepareValue (JStr path_id)) with (Some path_id) in Hr;
             rewrite Hk in Hr; [by destruct (pg_map _ _)|done]. }
    exists k. split; [done|].
    destruct Hreq as [-> | ->]; cbn [route] in Hr |- *.
    - unfold put_badge in Hr |- *. case_bool_decide; [discriminate|].
      cbn [run] in Hr |- *.
      destruct (pool_query_update_set_cases now d (collect_fields body)
                  (JStr path_id)) as [(asgs & Hq & _) | [e' Hq]];
        rewrite Hq in Hr |- *; [|discriminate].
      assert (Hkeep : ∀ f, PgOk (assign_all asgs) = PgOk f → keeps_key_and_times f)
        by (intros f Hf; injection Hf as <-; apply assign_all_keeps).
      eapply update_found; [exact Hkeep|done| |exact Hk].
      rewrite <- Hr; apply surjective_pairing.
    - unfold patch_verify in Hr |- *.
      destruct (typeof_boolean _); cbn [run pool_query] in Hr |- *.
      + eapply update_found; [apply patch_verify_set_keeps|done| |exact Hk].
        rewrite <- Hr; apply surjective_pairing.
      + assert (Hkeep : ∀ f, PgOk not_verified = PgOk f → keeps_key_and_times f)
          by (intros f Hf; injection Hf as <-; apply not_verified_keeps).
        eapply update_found; [exact Hkeep|done| |exact Hk].
        rewrite <- Hr; apply surjective_pairing. }
  destruct Hsel as (k & Hk & Hf). clearbody d'.
  unfold get_badge, run, pool_query.
  change (prepareValue (JStr path_id)) with (Some path_id).
  by rewrite Hk, Hf.
Qed.

Lemma updated_badge_can_be_read_witness :
  run (get_badge "1") 400 (run (route (PATCH_verify "1" ∅)) 300 one_badge_db).2
  = (ok_row (with_verified true 300 rust_basics),
     (run (route (PATCH_verify "1" ∅)) 300 one_badge_db).2).
Proof.
  assert (H : (run (route (PATCH_verify "1" ∅)) 300 one_badge_db).1
              = ok_row (with_verified true 300 rust_basics))
    by (vm_compute; reflexivity).
  exact (updated_badge_can_be_read 300 one_badge_db (PATCH_verify "1" ∅) "1" ∅
           (with_verified true 300 rust_basics) 400 one_badge_db_key
           (or_intror eq_refl) H).
Defined.

(** ** Two ways to set the flag *)

Lemma update_rows_ext now set1 set2 key (l : list badge) :
  (∀ r, set1 r = set2 r) → update_rows now set1 key l = update_rows now set2 key l.
Proof.
  intros H. induction l as [|r l' IH]; [done|]. simpl. by rewrite IH, H.
Qed.

Lemma assign_all_one a r : assign_all [a] r = assign a r.
Proof. simpl. by destruct (assign a r). Qed.

(** X11.  [PUT /badges/:id] with a body whose only allowed key is [verified],
    holding a boolean, does what [PATCH /badges/:id/verify] does with that
    boolean: the same answer and the same table, on every table and for
    every id, stored or not, readable or not. *)
Theorem put_verified_agrees_with_patch now d path_id (body body' : jsobject) b :
  body !! "verified" = Some (JBool b) →
  body !! "badge_name" = None → body !! "badge_description" = None →
  body !! "student_id" = None →
  body' !! "verified" = Some (JBool b) →
  run (put_badge path_id body) now d = run (patch_verify path_id body') now d.
Proof.
  intros Hv H1 H2 H4 Hv'. unfold put_badge, patch_verify.
  rewrite collect_fields_spec. unfold allowed. cbn [omap list_omap].
  rewrite Hv, H1, H2, H4. cbn [fmap option_fmap option_map length].
  rewrite bool_decide_eq_false_2 by discriminate.
  unfold prop. rewrite Hv'.
  cbn [default from_option Datatypes.id typeof_boolean run].
  rewrite (pool_query_update_set now d _ _ [SetVerified (Some b)])
    by (cbn [pg_mapM]; by rewrite bind_verified, boolean_in_bool).
  cbn [pool_query]. rewrite boolean_in_bool. unfold update. cbn [pg_map pg_bind].
  destruct (bigint_in _) as [k|]; [|done]. cbn [pg_bind].
  by rewrite (update_rows_ext now _ _ k (rows d) (assign_all_one (SetVerified (Some b)))).
Qed.

Lemma put_verified_agrees_with_patch_witness :
  run (put_badge "1" {[ "verified" := JBool true ]}) 300 one_badge_db
  = run (patch_verify "1" {[ "verified" := JBool true ]}) 300 one_badge_db.
Proof.
  apply (put_verified_agrees_with_patch 300 one_badge_db "1"
           {[ "verified" := JBool true ]} {[ "verified" := JBool true ]} true).
  - apply lookup_singleton_eq.
  - by apply lookup_singleton_ne.
  - by apply lookup_singleton_ne.
  - by apply lookup_singleton_ne.
  - apply lookup_singleton_eq.
Defined.

(** X12.  Setting the flag is idempotent but for the timestamp: after two
    [PATCH /badges/:id/verify] with the same boolean on the id of a stored
    row, the row is what one such request at the later time makes of
    it. *)
Theorem patch_verify_set_twice now1 now2 d path_id n r0 (body1 body2 : jsobject) b :
  bigint_in (Some path_id) = PgOk (Some n) →
  NoDup (id <$> rows d) → r0 ∈ rows d → id r0 = n →
  body1 !! "verified" = Some (JBool b) → body2 !! "verified" = Some (JBool b) →
  run (patch_verify path_id body2) now2 (run (patch_verify path_id body1) now1 d).2
  = run (patch_verify path_id body2) now2 d.
Proof.
  intros Hid Hnd Hin Hn Hb1 Hb2.
  pose proof (patch_verify_run now1 d path_id n r0 body1 Hid Hnd Hin Hn) as H1.
  unfold prop in H1. rewrite Hb1 in H1. cbn [default from_option Datatypes.id] in H1.
  set (r1 := with_verified b now1 r0) in *.
  rewrite H1. cbn [snd].
  pose proof (patch_verify_run now2 (replace_row n r1 d) path_id n r1 body2 Hid) as H2.
  unfold prop in H2. rewrite Hb2 in H2. cbn [default from_option Datatypes.id] in H2.
  rewrite replace_row_ids in H2 by done.
  rewrite (H2 Hnd (replace_row_elem n r0 r1 d Hin Hn) Hn).
  rewrite replace_row_twice by done.
  pose proof (patch_verify_run now2 d path_id n r0 body2 Hid Hnd Hin Hn) as H3.
  unfold prop in H3. rewrite Hb2 in H3. cbn [default from_option Datatypes.id] in H3.
  by rewrite H3.
Qed.

Lemma patch_verify_set_twice_witness :
  run (patch_verify "1" {[ "verified" := JBool true ]}) 400
    (run (patch_verify "1" {[ "verified" := JBool true ]}) 300 one_badge_db).2
  = run (patch_verify "1" {[ "verified" := JBool true ]}) 400 one_badge_db.
Proof.
  apply (patch_verify_set_twice 300 400 one_badge_db "1" 1 rust_basics
           {[ "verified" := JBool true ]} {[ "verified" := JBool true ]} true
           path_1 one_badge_db_key one_badge_db_row eq_refl);
    apply lookup_singleton_eq.
Defined.

(** ** What changes the table *)

(** X13.  Only a successful write changes the table: a request that only reads,
    and any request whose answer is not a 2xx (a 400, a 404, or an error
    passed to [next]), leaves the rows and the sequence exactly as they
    were. *)
Theorem only_successful_writes_change_the_table now req d :
  is_get req = true ∨ succeeded (run (route req) now d).1 = false →
  (run (route req) now d).2 = d.
Proof.
  assert (Hupd : ∀ set key,
    (∀ f, set = PgOk f → keeps_key_and_times f) →
    let out := match update now set key d with
               | (PgOk result_rows, d') =>
                   (if bool_decide (length result_rows = 0%nat) then not_found
                    else Json 200 {| success := true; message := None;
                                     data := first_row result_rows |}, d')
               | (PgErr err, d') => (Next err, d')
               end in
    succeeded out.1 = false → out.2 = d).
  { intros set key Hset out. subst out. unfold update.
    destruct set as [f|e]; cbn [pg_bind]; [|done].
    destruct key as [k|e]; cbn [pg_bind]; [|done].
    destruct (update_rows now f k (rows d)) as [[heap ret]|e] eqn:E; [|by simpl].
    cbn [fst snd]. case_bool_decide as Hlen; [|discriminate]. intros _.
    destruct ret; [|discriminate].
    destruct (update_rows_returning now f k _ _ _ (Hset f eq_refl) E) as [_ Hheap].
    rewrite Hheap by done. apply with_rows_same. }
  destruct req as [body|query|path_id|studentId|path_id body|path_id body|path_id];
    cbn [route is_get]; intros [Hget | Hfail]; try discriminate.
  - destruct (post_badges_cases now d body) as [(sid & name & _ & _ & H) | [H | [e H]]];
      rewrite H in Hfail |- *; [discriminate|done..].
  - unfold get_badges. destruct (truthy _); cbn [run pool_query]; [|done].
    by destruct (bigint_in _).
  - unfold get_badges. destruct (truthy _); cbn [run pool_query]; [|done].
    by destruct (bigint_in _).
  - unfold get_badge. cbn [run pool_query]. by destruct (bigint_in _).
  - unfold get_badge. cbn [run pool_query]. by destruct (bigint_in _).
  - unfold get_student_badges. cbn [run pool_query]. by destruct (bigint_in _).
  - unfold get_student_badges. cbn [run pool_query]. by destruct (bigint_in _).
  - revert Hfail. unfold put_badge. case_bool_decide; [done|]. cbn [run].
    destruct (pool_query_update_set_cases now d (collect_fields body) (JStr path_id))
      as [(asgs & -> & _) | [e ->]]; [|done].
    apply Hupd. intros f Hf. injection Hf as <-. apply assign_all_keeps.
  - revert Hfail. unfold patch_verify.
    destruct (typeof_boolean _); cbn [run pool_query]; apply Hupd.
    + apply patch_verify_set_keeps.
    + intros f Hf. injection Hf as <-. apply not_verified_keeps.
  - revert Hfail. unfold delete_badge. cbn [run pool_query].
    destruct (bigint_in _) as [k|]; [|done]. cbn [fst snd].
    case_bool_decide as Hlen; [|discriminate]. intros _.
    destruct (List.filter (id_is k) (rows d)) eqn:E; [|discriminate].
    replace (List.filter (λ r, negb (id_is k r)) (rows d)) with (rows d);
      [apply with_rows_same|].
    clear Hlen. induction (rows d) as [|r l IH]; [done|]. simpl in E |- *.
    destruct (id_is k r); [discriminate|]. simpl. f_equal. by apply IH.
Qed.

Lemma only_successful_writes_change_the_table_witness :
  (run (route (PUT_badge "1" {[ "badge_name" := JNull ]})) 300 one_badge_db).2
  = one_badge_db.
Proof.
  apply (only_successful_writes_change_the_table 300
           (PUT_badge "1" {[ "badge_name" := JNull ]}) one_badge_db).
  right. vm_compute. reflexivity.
Defined.

(** ** The statement a partial update sends *)

(** X14.  [PUT /badges/:id] with a body that owns at least one allowed key sends
    one [UPDATE] whose [SET] list names exactly the allowed keys the body
    owns, in the order of the allowed list, each once and each bound to
    the body's value, and whose last parameter is the path id; a key
    outside the allowed list never reaches the statement. *)
Theorem put_badge_binds_in_allowed_order path_id (body : jsobject) :
  (∃ key, key ∈ allowed ∧ is_Some (body !! key)) →
  ∃ fields k,
    put_badge path_id body = Query (UpdateSet fields (JStr path_id)) k
    ∧ fields.*1 = filter (λ key, is_Some (body !! key)) allowed
    ∧ NoDup fields.*1
    ∧ (∀ key v, (key, v) ∈ fields ↔ key ∈ allowed ∧ body !! key = Some v).
Proof.
  intros (key & Hkey & Hsome).
  assert (Hne : collect_fields body ≠ []).
  { intros Hnil. rewrite collect_fields_nil in Hnil.
    rewrite (Hnil key Hkey) in Hsome. by destruct Hsome. }
  assert (Hkeys : (collect_fields body).*1
                  = filter (λ key, is_Some (body !! key)) allowed).
  { rewrite collect_fields_spec. unfold allowed. cbn [omap list_omap].
    rewrite !filter_cons, filter_nil.
    destruct (body !! "badge_name"), (body !! "badge_description"),
      (body !! "verified"), (body !! "student_id"); reflexivity. }
  exists (collect_fields body). eexists. split; [|split; [|split]].
  - unfold put_badge.
    rewrite bool_decide_eq_false_2 by (by destruct (collect_fields body)).
    reflexivity.
  - exact Hkeys.
  - rewrite Hkeys. apply NoDup_filter.
    apply (bool_decide_unpack _). vm_compute. exact I.
  - intros key' v. split; [apply collect_fields_elem|].
    intros [Hk Hv]. rewrite collect_fields_spec. apply list_elem_of_omap.
    exists key'. split; [done|]. by rewrite Hv.
Qed.

Lemma put_badge_binds_in_allowed_order_witness :
  ∃ fields k,
    put_badge "1" {[ "student_id" := JNum "2"; "badge_name" := JStr "Go";
                     "id" := JNum "9" ]}
    = Query (UpdateSet fields (JStr "1")) k
    ∧ fields.*1 = ["badge_name"; "student_id"].
Proof.
  destruct (put_badge_binds_in_allowed_order "1"
              {[ "student_id" := JNum "2"; "badge_name" := JStr "Go";
                 "id" := JNum "9" ]}) as (fields & k & H1 & H2 & _).
  { exists "badge_name". split; [left|]. vm_compute. by eexists. }
  exists fields, k. split; [exact H1|]. rewrite H2. vm_compute. reflexivity.
Defined.

(** ** The column types hold in every table *)

Lemma bigint_in_range text n :
  bigint_in text = PgOk (Some n) → - 2 ^ 63 ≤ n < 2 ^ 63.
Proof.
  unfold bigint_in. destruct (pg_client_to_server text) as [[s|]|]; cbn [pg_bind];
    [|discriminate..].
  destruct (signed_decimal _) as [m|]; [|discriminate].
  case_bool_decide; [|discriminate]. by intros [= <-].
Qed.

Lemma utf8_take_length n s : (utf8_length (utf8_take n s) ≤ n)%nat.
Proof.
  revert n. induction s as [|c s IH]; intros n; simpl; [lia|].
  destruct (continuation c) eqn:E; simpl.
  - rewrite E. apply IH.
  - destruct n as [|n]; simpl; [lia|]. rewrite E. specialize (IH n). lia.
Qed.

Lemma varchar_typmod_length n text s :
  varchar_typmod n text = PgOk (Some s) → (utf8_length s ≤ n)%nat.
Proof.
  unfold varchar_typmod. destruct text as [s0|]; [|discriminate].
  case_bool_decide; [by intros [= <-]|].
  destruct (all_blank _); [|discriminate]. intros [= <-]. apply utf8_take_length.
Qed.

Lemma varchar_in_length n text s :
  varchar_in n text = PgOk (Some s) → (utf8_length s ≤ n)%nat.
Proof. intros H. apply varchar_in_ok in H as [_ H]. by eapply varchar_typmod_length. Qed.

Lemma bind_assignment_fits item a : bind_assignment item = PgOk a → fits_column a.
Proof.
  destruct item as [key v]. unfold bind_assignment, read_assignment. cbn [fst snd].
  repeat case_bool_decide; [| | | |discriminate].
  - destruct (text_in _) as [t|]; [|discriminate]. cbn [pg_map pg_bind coerce_assignment].
    destruct (varchar_typmod 255 t) as [[s|]|] eqn:E; intros [= <-]; [|done].
    by apply varchar_typmod_length in E.
  - destruct (text_in _) as [t|]; [|discriminate]. by intros [= <-].
  - destruct (boolean_in _) as [b|]; [|discriminate]. intros [= <-]. by destruct b.
  - destruct (bigint_in _) as [[n|]|] eqn:E; intros [= <-]; [|done].
    by apply bigint_in_range in E.
Qed.

Lemma pg_mapM_Forall {A B} (f : A → pg_result B) (Q : B → Prop) l ys :
  (∀ x y, f x = PgOk y → Q y) → pg_mapM f l = PgOk ys → Forall Q ys.
Proof.
  intros Hf. revert ys. induction l as [|x l' IH]; intros ys H; simpl in H.
  { by injection H as <-. }
  destruct (f x) as [y|] eqn:E; [|discriminate]. simpl in H.
  destruct (pg_mapM f l') as [ys'|]; [|discriminate]. simpl in H.
  injection H as <-. constructor; [by eapply Hf|by apply IH].
Qed.

Lemma assign_fits a r r1 :
  fits_column a → fits_schema r → assign a r = PgOk r1 → fits_schema r1.
Proof.
  intros Ha (H1 & H2 & H3) H. unfold fits_schema.
  destruct a as [[?|]|?|[?|]|[?|]]; simpl in H; try discriminate;
    injection H as <-; simpl in *; auto.
Qed.

Lemma assign_all_fits l r r1 :
  Forall fits_column l → fits_schema r → assign_all l r = PgOk r1 → fits_schema r1.
Proof.
  intros Hl. revert r. induction Hl as [|a l' Ha _ IH]; intros r Hr H; simpl in H.
  { by injection H as <-. }
  destruct (assign a r) as [r'|] eqn:E; [|discriminate]. simpl in H.
  eapply IH; [|done]. by eapply assign_fits.
Qed.

Lemma update_rows_fits now set key (l heap returning : list badge) :
  (∀ r r1, fits_schema r → set r = PgOk r1 → fits_schema r1) →
  Forall fits_schema l →
  update_rows now set key l = PgOk (heap, returning) →
  Forall fits_schema heap.
Proof.
  intros Hset Hl. revert heap returning.
  induction Hl as [|r l' Hr _ IH]; intros heap returning H; simpl in H.
  { by injection H as <- <-. }
  destruct (id_is key r).
  - destruct (set r) as [r1|] eqn:E; [|discriminate]. simpl in H.
    destruct (update_rows now set key l') as [[heap' ret']|]; [|discriminate].
    simpl in H. injection H as <- <-. constructor; [|by eapply IH].
    by apply (Hset r r1).
  - destruct (update_rows now set key l') as [[heap' ret']|]; [|discriminate].
    simpl in H. injection H as <- <-. constructor; [done|by eapply IH].
Qed.

Lemma update_fits now set key d :
  (∀ f, set = PgOk f → ∀ r r1, fits_schema r → f r = PgOk r1 → fits_schema r1) →
  Forall fits_schema (rows d) →
  Forall fits_schema (rows (update now set key d).2).
Proof.
  intros Hset Hd. unfold update.
  destruct set as [f|e]; cbn [pg_bind]; [|done].
  destruct key as [k|e]; cbn [pg_bind]; [|done].
  destruct (update_rows now f k (rows d)) as [[heap ret]|e] eqn:E; [|done].
  cbn [snd with_rows rows]. by eapply update_rows_fits; [apply Hset| |].
Qed.

Lemma run_fits now req d :
  1 ≤ skill_badges_id_seq d → Forall fits_schema (rows d) →
  Forall fits_schema (rows (run (route req) now d).2).
Proof.
  intros Hseq Hd.
  assert (Hupd : ∀ set key k,
    (∀ f, set = PgOk f → ∀ r r1, fits_schema r → f r = PgOk r1 → fits_schema r1) →
    Forall fits_schema
      (rows (match update now set key d with
             | (PgOk result_rows, d') => (k result_rows, d')
             | (PgErr err, d') => (Next err, d')
             end).2)).
  { intros set key k Hset. pose proof (update_fits now set key d Hset Hd) as H.
    by destruct (update now set key d) as [[?|?] ?]. }
  destruct req as [body|query|path_id|studentId|path_id body|path_id body|path_id];
    cbn [route].
  - destruct (post_badges_cases now d body)
      as [(sid & name & Hsid & Hname & H) | [H | [e H]]]; rewrite H; [|done..].
    cbn [snd rows]. apply Forall_app. split; [done|]. apply Forall_singleton.
    unfold fits_schema, created_row. cbn [id student_id badge_name].
    split; [done|]. split; [by eapply bigint_in_range|by eapply varchar_in_length].
  - unfold get_badges. destruct (truthy _); cbn [run pool_query]; [|done].
    by destruct (bigint_in _).
  - unfold get_badge. cbn [run pool_query]. by destruct (bigint_in _).
  - unfold get_student_badges. cbn [run pool_query]. by destruct (bigint_in _).
  - unfold put_badge. case_bool_decide; [done|]. cbn [run].
    destruct (pool_query_update_set_cases now d (collect_fields body) (JStr path_id))
      as [(asgs & -> & E) | [e ->]]; [|done].
    apply Hupd. intros f Hf. injection Hf as <-. intros r r1. apply assign_all_fits.
    eapply pg_mapM_Forall; [|exact E]. apply bind_assignment_fits.
  - unfold patch_verify. destruct (typeof_boolean _); cbn [run pool_query]; apply Hupd.
    + intros f Hf. destruct (boolean_in _) as [v|]; [|discriminate].
      injection Hf as <-. intros r r1. apply assign_fits. by destruct v.
    + intros f Hf. injection Hf as <-. intros r r1. by apply assign_fits.
  - unfold delete_badge. cbn [run pool_query].
    destruct (bigint_in _) as [k|]; [|done]. cbn [snd with_rows rows].
    apply Forall_forall. intros r Hr. rewrite Forall_forall in Hd. apply Hd.
    apply list_elem_of_In in Hr. apply filter_In in Hr as [Hr _].
    by apply list_elem_of_In.
Qed.

(** X15.  The column types of the schema hold in every table the router can
    produce, whatever the bodies were: every stored [id] is at least 1 and
    below the sequence, every [student_id] is in the range of a signed
    64-bit integer, and every [badge_name] has at most 255 characters
    (characters of the text, not bytes of its encoding). *)
Theorem reachable_rows_fit_schema t d :
  reachable t d →
  1 ≤ skill_badges_id_seq d
  ∧ Forall (λ r, fits_schema r ∧ id r < skill_badges_id_seq d) (rows d).
Proof.
  intros Hreach.
  assert (H : 1 ≤ skill_badges_id_seq d ∧ Forall fits_schema (rows d)).
  { induction Hreach as [t|t d now req _ [IH1 IH2] Ht].
    - split; [done|constructor].
    - split; [|by apply run_fits].
      destruct (run_shape now req d) as [Hseq _]. lia. }
  destruct H as [H1 H2]. split; [done|].
  destruct (reachable_inv t d Hreach) as [_ Hall].
  rewrite Forall_forall in H2, Hall |- *. intros r Hr. split; [by apply H2|].
  by destruct (Hall r Hr).
Qed.

Lemma reachable_rows_fit_schema_witness :
  1 ≤ skill_badges_id_seq one_badge_db
  ∧ Forall (λ r, fits_schema r ∧ id r < skill_badges_id_seq one_badge_db)
      (rows one_badge_db).
Proof. exact (reachable_rows_fit_schema 100 one_badge_db one_badge_db_reachable). Defined.

(** ** Errors of the statement *)

Lemma no_leading_digit_unreadable s :
  no_leading_digit s = true → ∃ e, bigint_in (Some s) = PgErr e.
Proof.
  intros H. unfold bigint_in, pg_client_to_server.
  destruct (valid_utf8 s); cbn [pg_bind]; [|by eexists].
  unfold signed_decimal. unfold no_leading_digit in H.
  destruct (starts_with_digit _); [discriminate|]. by eexists.
Qed.

(** X16.  A path parameter that does not begin as a number (after blanks
    and an optional sign, no decimal digit) makes the statement fail when
    it is bound: on every table, [GET /badges/:id],
    [GET /students/:studentId/badges], [DELETE /badges/:id],
    [PATCH /badges/:id/verify] with any body, and [PUT /badges/:id] with
    any body that owns an allowed key, pass an error to [next]; none
    answers 404, and the table is left as it was. *)
Theorem unreadable_id_is_passed_to_next now d path_id :
  no_leading_digit path_id = true →
  (∃ e, run (get_badge path_id) now d = (Next e, d)
        ∧ run (get_student_badges path_id) now d = (Next e, d)
        ∧ run (delete_badge path_id) now d = (Next e, d)
        ∧ ∀ body : jsobject, run (patch_verify path_id body) now d = (Next e, d))
  ∧ (∀ body : jsobject,
       (∃ key, key ∈ allowed ∧ is_Some (body !! key)) →
       ∃ e, run (put_badge path_id body) now d = (Next e, d)).
Proof.
  intros Hno. destruct (no_leading_digit_unreadable path_id Hno) as [e Hid].
  split.
  - exists e. split; [|split; [|split]].
    + unfold get_badge, run, pool_query.
      change (prepareValue (JStr path_id)) with (Some path_id). by rewrite Hid.
    + unfold get_student_badges, run, pool_query.
      change (prepareValue (JStr path_id)) with (Some path_id). by rewrite Hid.
    + unfold delete_badge, run, pool_query.
      change (prepareValue (JStr path_id)) with (Some path_id). by rewrite Hid.
    + intros body. unfold patch_verify.
      destruct (prop body "verified") as [| |b| | |]; cbn [typeof_boolean];
        unfold run, pool_query, update;
        change (prepareValue (JStr path_id)) with (Some path_id); rewrite Hid;
        rewrite ?boolean_in_bool; reflexivity.
  - intros body (key & Hkey & v & Hv).
    assert (Hne : collect_fields body ≠ []).
    { intros Hnil. rewrite collect_fields_nil in Hnil.
      by rewrite (Hnil key Hkey) in Hv. }
    unfold put_badge.
    rewrite bool_decide_eq_false_2 by (by destruct (collect_fields body)).
    cbn [run pool_query].
    destruct (pg_mapM read_assignment _) as [reads|e1]; cbn [pg_bind]; [|by eexists].
    change (prepareValue (JStr path_id)) with (Some path_id). rewrite Hid.
    by eexists.
Qed.

Lemma unreadable_id_is_passed_to_next_witness :
  ∃ e, run (get_badge "abc") 300 one_badge_db = (Next e, one_badge_db)
       ∧ run (get_student_badges "abc") 300 one_badge_db = (Next e, one_badge_db)
       ∧ run (delete_badge "abc") 300 one_badge_db = (Next e, one_badge_db)
       ∧ ∀ body : jsobject,
           run (patch_verify "abc" body) 300 one_badge_db = (Next e, one_badge_db).
Proof.
  assert (H : no_leading_digit "abc" = true) by (vm_compute; reflexivity).
  exact (proj1 (unreadable_id_is_passed_to_next 300 one_badge_db "abc" H)).
Defined.

Lemma pg_mapM_err {A B} (f : A → pg_result B) (l : list A) x e :
  x ∈ l → f x = PgErr e → ∃ e', pg_mapM f l = PgErr e'.
Proof.
  induction l as [|y l' IH]; intros Hin Hx; [by apply elem_of_nil in Hin|].
  simpl. destruct (f y) as [b|e0] eqn:E; [|by eexists]. simpl.
  apply elem_of_cons in Hin as [->|Hin]; [congruence|].
  destruct (IH Hin Hx) as [e' ->]. by eexists.
Qed.

Lemma collect_fields_owned (body : jsobject) key v :
  key ∈ allowed → body !! key = Some v → (key, v) ∈ collect_fields body.
Proof.
  intros Hk Hv. rewrite collect_fields_spec. apply list_elem_of_omap.
  exists key. split; [done|]. by rewrite Hv.
Qed.

Lemma read_assignment_invalid key text v :
  key ∈ allowed → prepareValue v = Some text → valid_utf8 text = false →
  ∃ e, read_assignment (key, v) = PgErr e.
Proof.
  intros Hkey Hv Hvalid. unfold read_assignment. cbn [fst snd]. rewrite Hv.
  unfold text_in, boolean_in, bigint_in, pg_client_to_server. rewrite Hvalid.
  cbn [pg_bind pg_map].
  repeat (case_bool_decide; [by eexists|]).
  exfalso. unfold allowed in Hkey.
  repeat (apply elem_of_cons in Hkey as [->|Hkey]; [done|]).
  by apply elem_of_nil in Hkey.
Qed.

Lemma never_readable_error key v :
  key ∈ allowed → never_readable key v = true →
  ∃ e, read_assignment (key, v) = PgErr e.
Proof.
  intros Hkey. unfold never_readable.
  destruct (prepareValue v) as [text|] eqn:Hv; [|discriminate].
  destruct (valid_utf8 text) eqn:Hvalid;
    [|intros _; by apply (read_assignment_invalid key text)].
  cbn [negb orb]. intros H. apply orb_true_iff in H as [H|H];
    apply andb_true_iff in H as [Hk H]; apply bool_decide_eq_true_1 in Hk;
    subst key; unfold read_assignment; cbn [fst snd]; rewrite Hv.
  - rewrite (bool_decide_eq_false_2 ("verified" = "badge_name")) by done.
    rewrite (bool_decide_eq_false_2 ("verified" = "badge_description")) by done.
    rewrite bool_decide_eq_true_2 by done.
    destruct (boolean_in (Some text)) as [b|e]; [discriminate|]. by eexists.
  - rewrite (bool_decide_eq_false_2 ("student_id" = "badge_name")) by done.
    rewrite (bool_decide_eq_false_2 ("student_id" = "badge_description")) by done.
    rewrite (bool_decide_eq_false_2 ("student_id" = "verified")) by done.
    rewrite bool_decide_eq_true_2 by done.
    destruct (no_leading_digit_unreadable text H) as [e E]. rewrite E. by eexists.
Qed.

(** X17.  A body value that cannot be read at its column (a text that is
    not of the encoding, the zero character included; under [verified] a
    text that spells no boolean; under [student_id] a text that does not
    begin as a number) makes [PUT /badges/:id] fail before any row is
    looked at: whether or not the id is stored, and whether or not it is
    readable, some error is passed to [next], the answer is neither 200
    nor 404, and the table is left as it was. *)
Theorem put_badge_unreadable_value_is_passed_to_next now d path_id (body : jsobject)
    key v :
  key ∈ allowed → body !! key = Some v → never_readable key v = true →
  ∃ e, run (put_badge path_id body) now d = (Next e, d).
Proof.
  intros Hkey Hv Hnever.
  pose proof (collect_fields_owned body key v Hkey Hv) as Hin.
  destruct (never_readable_error key v Hkey Hnever) as [e E].
  destruct (pg_mapM_err read_assignment _ _ e Hin E) as [e' He'].
  exists e'. unfold put_badge.
  rewrite bool_decide_eq_false_2
    by (destruct (collect_fields body); [by apply elem_of_nil in Hin|done]).
  cbn [run pool_query]. by rewrite He'.
Qed.

Lemma put_badge_unreadable_value_is_passed_to_next_witness :
  ∃ e, run (put_badge "999" {[ "badge_description" := JStr description_with_nul ]})
         300 one_badge_db
       = (Next e, one_badge_db).
Proof.
  apply (put_badge_unreadable_value_is_passed_to_next 300 one_badge_db "999"
           {[ "badge_description" := JStr description_with_nul ]}
           "badge_description" (JStr description_with_nul)).
  - repeat first [by left | right].
  - apply lookup_singleton_eq.
  - vm_compute. reflexivity.
Defined.

Lemma pg_mapM_elem {A B} (f : A → pg_result B) (l : list A) ys x :
  pg_mapM f l = PgOk ys → x ∈ l → ∃ y, y ∈ ys ∧ f x = PgOk y.
Proof.
  revert ys. induction l as [|x0 l' IH]; intros ys H Hin; [by apply elem_of_nil in Hin|].
  simpl in H. destruct (f x0) as [y0|] eqn:E; [|discriminate]. simpl in H.
  destruct (pg_mapM f l') as [ys'|]; [|discriminate]. simpl in H. injection H as <-.
  apply elem_of_cons in Hin as [->|Hin].
  - exists y0. split; [left|done].
  - destruct (IH ys' eq_refl Hin) as (y & Hy & Hfy). exists y. split; [by right|done].
Qed.

Lemma assign_error a r e : assign a r = PgErr e → e = not_null_violation ∧ ∀ r', assign a r' = PgErr e.
Proof.
  destruct a as [[?|]|?|[?|]|[?|]]; simpl; try discriminate; by intros [= <-].
Qed.

Lemma assign_all_rejects l a r :
  a ∈ l → (∀ r', assign a r' = PgErr not_null_violation) →
  assign_all l r = PgErr not_null_violation.
Proof.
  revert r. induction l as [|a0 l' IH]; intros r Hin Ha; [by apply elem_of_nil in Hin|].
  simpl. destruct (assign a0 r) as [r1|e] eqn:E.
  - simpl. apply elem_of_cons in Hin as [->|Hin]; [by rewrite Ha in E|by apply IH].
  - by apply assign_error in E as [-> _].
Qed.

Lemma update_rows_rejects now set n r0 (l : list badge) e :
  r0 ∈ l → id r0 = n → (∀ r, set r = PgErr e) →
  update_rows now set (Some n) l = PgErr e.
Proof.
  intros Hin Hn Hset. induction l as [|r l' IH]; [by apply elem_of_nil in Hin|].
  simpl. case_bool_decide as Hr; [by rewrite Hset|].
  apply elem_of_cons in Hin as [->|Hin]; [done|]. by rewrite IH.
Qed.

(** X18.  [NOT NULL] is checked on the rows a statement updates, so a [null]
    under [badge_name], [verified] or [student_id] is an error only when
    there is a row to update: with otherwise readable values,
    [PUT /badges/:id] on the id of a stored row passes the constraint
    violation to [next] and leaves the table as it was. *)
Theorem put_badge_null_violates_not_null now d path_id n r0 (body : jsobject) key v :
  bigint_in (Some path_id) = PgOk (Some n) → r0 ∈ rows d → id r0 = n →
  (∀ key v, key ∈ allowed → body !! key = Some v → readable key v = true) →
  key ∈ allowed → body !! key = Some v → accepts key v = false →
  run (put_badge path_id body) now d = (Next not_null_violation, d).
Proof.
  intros Hid Hin Hn Hread Hkey Hv Hacc.
  pose proof (collect_fields_owned body key v Hkey Hv) as Hf.
  destruct (pg_mapM_ok bind_assignment (collect_fields body)) as [asgs Hasgs].
  { intros [key' v'] Hin'. apply collect_fields_elem in Hin' as [Hk' Hv'].
    specialize (Hread key' v' Hk' Hv'). unfold readable in Hread.
    destruct (bind_assignment (key', v')); [by eexists|discriminate]. }
  destruct (pg_mapM_elem _ _ _ _ Hasgs Hf) as (a & Ha & Hbind).
  assert (Hrej : ∀ r', assign a r' = PgErr not_null_violation).
  { unfold accepts in Hacc. rewrite Hbind in Hacc.
    by destruct a as [[?|]|?|[?|]|[?|]]. }
  unfold put_badge.
  rewrite bool_decide_eq_false_2
    by (destruct (collect_fields body); [by apply elem_of_nil in Hf|done]).
  cbn [run]. rewrite (pool_query_update_set now d _ _ asgs Hasgs). unfold update.
  change (prepareValue (JStr path_id)) with (Some path_id).
  rewrite Hid. cbn [pg_bind].
  rewrite (update_rows_rejects now _ n r0 (rows d) not_null_violation); [done..|].
  intros r. by apply (assign_all_rejects asgs a).
Qed.

Lemma put_badge_null_violates_not_null_witness :
  run (put_badge "1" {[ "verified" := JNull ]}) 300 one_badge_db
  = (Next not_null_violation, one_badge_db).
Proof.
  apply (put_badge_null_violates_not_null 300 one_badge_db "1" 1 rust_basics
           {[ "verified" := JNull ]} "verified" JNull path_1 one_badge_db_row eq_refl).
  - intros key v Hkey.
    destruct (decide (key = "verified")) as [->|Hne].
    + rewrite lookup_singleton_eq. intros [= <-]. vm_compute. reflexivity.
    + by rewrite lookup_singleton_ne.
  - repeat first [by left | right].
  - apply lookup_singleton_eq.
  - vm_compute. reflexivity.
Defined.
